(** * SmartEyes scraper: a shallow embedding of [scraper.py]

    The script is a three-stage pipeline: [get_hrefs] pages through the
    listing, [extract_dimensions] visits every product page and fills a
    dictionary of columns, [save_as_csv] turns the dictionary into a
    DataFrame and writes it.  The embedding threads one explicit state
    (the network, the lines written through [tqdm.write] together with
    the requests made, and the file system) through the three stages and
    keeps Python exceptions as an explicit outcome. *)

From Stdlib Require Import String Ascii.
From Stdlib Require Import List ZArith NArith Lia Bool.
Import ListNotations.

Set Implicit Arguments.

(** ** Python strings

    A Python [str] is a sequence of code points; the script relies on
    that for ["ä"] (U+00E4, one code point in the source file). *)

Definition str := list N.

Definition lit (s : string) : str :=
  map N_of_ascii (list_ascii_of_string s).

Fixpoint str_eqb (a b : str) : bool :=
  match a, b with
  | [], [] => true
  | x :: a', y :: b' => N.eqb x y && str_eqb a' b'
  | _, _ => false
  end.

Fixpoint starts_with (p s : str) : bool :=
  match p, s with
  | [], _ => true
  | x :: p', y :: s' => N.eqb x y && starts_with p' s'
  | _ :: _, [] => false
  end.

(** [s.replace(old, new)] for a non-empty [old]: matches are taken left
    to right and do not overlap.  [skip] counts the code points of the
    match just replaced that are still to be dropped. *)
Fixpoint replace_from (old new : str) (skip : nat) (s : str) : str :=
  match s with
  | [] => []
  | c :: s' =>
      match skip with
      | S k => replace_from old new k s'
      | O =>
          if starts_with old s
          then new ++ replace_from old new (length old - 1) s'
          else c :: replace_from old new 0 s'
      end
  end.

Definition str_replace (old new s : str) : str := replace_from old new 0 s.

(** [s.split(sep)] for a non-empty [sep]; [cur] is the piece being read. *)
Fixpoint split_from (sep : str) (skip : nat) (cur s : str) : list str :=
  match s with
  | [] => [cur]
  | c :: s' =>
      match skip with
      | S k => split_from sep k cur s'
      | O =>
          if starts_with sep s
          then cur :: split_from sep (length sep - 1) [] s'
          else split_from sep 0 (cur ++ [c]) s'
      end
  end.

Definition str_split (sep s : str) : list str := split_from sep 0 [] s.

(** Decimal rendering, as [str(n)] and the [{n}] of an f-string do. *)
Fixpoint uint_digits (d : Decimal.uint) : str :=
  match d with
  | Decimal.Nil => []
  | Decimal.D0 d' => 48%N :: uint_digits d'
  | Decimal.D1 d' => 49%N :: uint_digits d'
  | Decimal.D2 d' => 50%N :: uint_digits d'
  | Decimal.D3 d' => 51%N :: uint_digits d'
  | Decimal.D4 d' => 52%N :: uint_digits d'
  | Decimal.D5 d' => 53%N :: uint_digits d'
  | Decimal.D6 d' => 54%N :: uint_digits d'
  | Decimal.D7 d' => 55%N :: uint_digits d'
  | Decimal.D8 d' => 56%N :: uint_digits d'
  | Decimal.D9 d' => 57%N :: uint_digits d'
  end.

Definition str_of_nat (n : nat) : str := uint_digits (Nat.to_uint n).

Definition str_of_Z (z : Z) : str :=
  match z with
  | Z0 => [48%N]
  | Zpos p => uint_digits (Pos.to_uint p)
  | Zneg p => 45%N :: uint_digits (Pos.to_uint p)
  end.

(** Code points the script names. *)
Definition space : N := 32.
Definition a_umlaut : N := 228.   (* "ä" *)
Definition latin_a : N := 97.     (* "a" *)

(** The words of the specification for the two conversions: folding one
    character into another, and the token before the first space. *)
Definition fold_char (from to : N) (s : str) : str :=
  map (fun c => if N.eqb c from then to else c) s.

Fixpoint token_before (c : N) (s : str) : str :=
  match s with
  | [] => []
  | x :: s' => if N.eqb x c then [] else x :: token_before c s'
  end.

(** ** Values, dictionaries, documents *)

(** What the lists of the result dictionary hold. *)
Inductive value :=
| VStr (s : str)
| VInt (z : Z).

(** A Python [dict] keeps insertion order, and the order of the keys is
    the order of the CSV columns: an association list. *)
Definition dict := list (str * list value).

Fixpoint dict_get (k : str) (d : dict) : option (list value) :=
  match d with
  | [] => None
  | (k', l) :: d' => if str_eqb k k' then Some l else dict_get k d'
  end.

(** The list stored under [k] is replaced (the effect of mutating it in
    place); the keys and their order do not change. *)
Fixpoint dict_set (k : str) (l : list value) (d : dict) : dict :=
  match d with
  | [] => []
  | (k', l') :: d' =>
      if str_eqb k k' then (k', l) :: d' else (k', l') :: dict_set k l d'
  end.

(** An element found by [find_all]: its attributes and the text
    fragments below it, in document order. *)
Record tag := {
  attrs : list (str * str);
  strings : list str
}.

(** [a.get(name)]: [None] when the attribute is missing. *)
Fixpoint attr_get (name : str) (l : list (str * str)) : option str :=
  match l with
  | [] => None
  | (k, v) :: l' => if str_eqb name k then Some v else attr_get name l'
  end.

Definition tag_get (name : str) (t : tag) : option str :=
  attr_get name (attrs t).

(** A parsed response, seen through the three selectors of the script. *)
Record page := {
  product_block_images : list tag;   (* find_all("a", class_="product-block-images") *)
  prop_tags : list tag;              (* the property names *)
  measurement_tags : list tag        (* the property dimensions *)
}.

(** ** Exceptions, files, events *)

Inductive exn :=
| RequestException
| TypeError
| KeyError
| IndexError
| ValueError
| FileExistsError
| IsADirectoryError.

Inductive outcome (A : Type) :=
| Ok (a : A)
| Raise (e : exn).

Arguments Raise {A} e.

Inductive entry :=
| Dir
| File (content : str).

(** The file system: what each path the script uses designates. *)
Definition fs := str -> option entry.

Definition fs_set (p : str) (e : entry) (f : fs) : fs :=
  fun q => if str_eqb q p then Some e else f q.

(** What an observer sees: the requests, and the lines of [tqdm.write]. *)
Inductive event :=
| Get (url : str)
| Write (msg : str).

(** ** What the script takes from outside

    The network and three built-ins of Python ([str.lower], [str.strip],
    [int]) are not code of the script: every statement below holds for
    whatever they compute.  [requests_get url headers w] is the parsed
    response, or [None] when the request raises. *)
Class Runtime := {
  World : Type;
  requests_get : str -> list (str * str) -> World -> option page * World;
  str_lower : str -> str;
  str_strip : str -> str;
  py_int : str -> option Z
}.

Section Scraper.

Context {R : Runtime}.

Record state := {
  net : World;
  log : list event;
  disk : fs
}.

(** Computations of the script: state passing, with exceptions. *)
Definition M (A : Type) : Type := state -> outcome A * state.

Definition ret {A : Type} (a : A) : M A := fun s => (Ok a, s).

Definition raise {A : Type} (e : exn) : M A := fun s => (Raise e, s).

Definition bind {A B : Type} (m : M A) (k : A -> M B) : M B :=
  fun s =>
    match m s with
    | (Ok a, s') => k a s'
    | (Raise e, s') => (Raise e, s')
    end.

Local Notation "x <- m ;; k" := (bind m (fun x => k))
  (at level 61, m at next level, right associativity).
Local Notation "m ;;; k" := (bind m (fun _ => k))
  (at level 61, right associativity).

Definition HEADERS : list (str * str) :=
  [(lit "User-Agent", lit "Mozilla/5.0")].

(** [requests.get(url, headers=HEADERS)] followed by the parse. *)
Definition http_get (url : str) : M page :=
  fun s =>
    let (r, w) := requests_get url HEADERS (net s) in
    let s' := {| net := w; log := log s ++ [Get url]; disk := disk s |} in
    match r with
    | Some pg => (Ok pg, s')
    | None => (Raise RequestException, s')
    end.

Definition tqdm_write (msg : str) : M unit :=
  fun s =>
    (Ok tt, {| net := net s; log := log s ++ [Write msg]; disk := disk s |}).

(** *** get_hrefs *)

Definition listing_base : str := lit "https://smarteyes.se/glasogon/herr-bagar".

Definition listing_urls : list str :=
  listing_base ::
  map (fun n => listing_base ++ lit "?page=" ++ str_of_nat n) (seq 2 99).

Fixpoint get_hrefs_loop (urls : list str) (hrefs : list (option str))
  : M (list (option str)) :=
  match urls with
  | [] => ret hrefs
  | url :: urls' =>
      pg <- http_get url ;;
      let links := product_block_images pg in
      let hrefs_tmp := map (tag_get (lit "href")) links in
      if 0 <? length hrefs_tmp
      then get_hrefs_loop urls' (hrefs ++ hrefs_tmp)
      else tqdm_write (lit "Last page: " ++ url) ;;; ret hrefs
  end.

Definition get_hrefs : M (list (option str)) :=
  get_hrefs_loop listing_urls [].

(** *** extract_dimensions *)

Definition empty_result : dict :=
  [ (lit "url", []); (lit "bredd", []); (lit "brygga", []);
    (lit "glasbredd", []); (lit "skalmlangd", []) ].

Definition product_base : str := lit "https://www.smarteyes.se".

(** [t.get_text(strip=True)]: every fragment is stripped, the empty
    ones are left out, the rest is joined. *)
Definition get_text_strip (t : tag) : str :=
  concat (filter (fun x => negb (str_eqb x [])) (map str_strip (strings t))).

(** [result[key].append(v)] *)
Definition dict_append (key : str) (v : value) (result : dict)
  : outcome dict :=
  match dict_get key result with
  | None => Raise KeyError
  | Some l => Ok (dict_set key (l ++ [v]) result)
  end.

(** [result[key].append(int(measurement.split(" ")[0]))]: the
    subscript is evaluated before the argument. *)
Definition try_append (key measurement : str) (result : dict)
  : outcome dict :=
  match dict_get key result with
  | None => Raise KeyError
  | Some l =>
      match nth_error (str_split [space] measurement) 0 with
      | None => Raise IndexError
      | Some token =>
          match py_int token with
          | None => Raise ValueError
          | Some z => Ok (dict_set key (l ++ [VInt z]) result)
          end
      end
  end.

Definition derive_key (prop : str) : str :=
  str_replace [a_umlaut] [latin_a] (str_lower prop).

(** The body of the inner loop, for the tags [p] and [m]. *)
Definition process_pair (href : str) (p m : tag) (result : dict) : M dict :=
  let prop := get_text_strip p in
  let measurement := get_text_strip m in
  let key := derive_key prop in
  match try_append key measurement result with
  | Ok result' => ret result'
  | Raise _ =>
      tqdm_write (href ++ lit ": invalid measurement value '" ++ measurement
                       ++ lit "' or key '" ++ key ++ lit "'.") ;;;
      ret result
  end.

(** [for i, _ in enumerate(measurements)]: both lists are indexed. *)
Fixpoint pairs_loop (href : str) (props measurements : list tag)
         (idx : list nat) (result : dict) : M dict :=
  match idx with
  | [] => ret result
  | i :: idx' =>
      match nth_error props i, nth_error measurements i with
      | Some p, Some m =>
          result' <- process_pair href p m result ;;
          pairs_loop href props measurements idx' result'
      | _, _ => raise IndexError
      end
  end.

(** The body of the outer loop. *)
Definition extract_page (href : option str) (result : dict) : M dict :=
  match href with
  | None => raise TypeError          (* url_base + None *)
  | Some h =>
      let url := product_base ++ h in
      match dict_append (lit "url") (VStr url) result with
      | Raise e => raise e
      | Ok result1 =>
          pg <- http_get url ;;
          let props := prop_tags pg in
          let measurements := measurement_tags pg in
          if length props =? length measurements
          then pairs_loop h props measurements
                          (seq 0 (length measurements)) result1
          else
            tqdm_write
              (h ++ lit ": not equal number of properties and measurements") ;;;
            ret result1
      end
  end.

Fixpoint extract_loop (hrefs : list (option str)) (result : dict) : M dict :=
  match hrefs with
  | [] => ret result
  | href :: hrefs' =>
      result' <- extract_page href result ;;
      extract_loop hrefs' result'
  end.

Definition extract_dimensions (hrefs : list (option str)) : M dict :=
  extract_loop hrefs empty_result.

(** *** save_as_csv *)

(** [pd.DataFrame(data)] for a dictionary of lists: the columns in the
    order of the keys; lists of different lengths are refused. *)
Record DataFrame := {
  columns : list str;
  nrows : nat;
  cells : list (list value)
}.

Definition make_DataFrame (data : dict) : outcome DataFrame :=
  match data with
  | [] => Ok {| columns := []; nrows := 0; cells := [] |}
  | (_, l) :: _ =>
      if forallb (fun kv => length (snd kv) =? length l) data
      then Ok {| columns := map fst data;
                 nrows := length l;
                 cells := map snd data |}
      else Raise ValueError
  end.

Definition comma : N := 44.
Definition dquote : N := 34.
Definition newline : N := 10.
Definition carriage_return : N := 13.

(** The [csv] writer under its defaults: a field is quoted when it
    holds the delimiter, the quote or a line break, and a quote inside
    it is doubled. *)
Definition needs_quote (s : str) : bool :=
  existsb (fun c => N.eqb c comma || N.eqb c dquote
                    || N.eqb c newline || N.eqb c carriage_return) s.

Definition csv_field (s : str) : str :=
  if needs_quote s
  then dquote :: flat_map (fun c => if N.eqb c dquote then [dquote; dquote]
                                    else [c]) s ++ [dquote]
  else s.

Fixpoint join (sep : str) (l : list str) : str :=
  match l with
  | [] => []
  | [x] => x
  | x :: l' => x ++ sep ++ join sep l'
  end.

(** A line of one empty field is written as two quotes. *)
Definition csv_line (fields : list str) : str :=
  match fields with
  | [[]] => [dquote; dquote; newline]
  | _ => join [comma] (map csv_field fields) ++ [newline]
  end.

Definition render (v : value) : str :=
  match v with
  | VStr s => s
  | VInt z => str_of_Z z
  end.

Definition cell_text (col : list value) (i : nat) : str :=
  match nth_error col i with
  | Some v => render v
  | None => []
  end.

(** [df.to_csv(path, index=False)]: the header, then a line per row,
    no index column. *)
Definition to_csv_text (df : DataFrame) : str :=
  csv_line (columns df) ++
  flat_map (fun i => csv_line (map (fun col => cell_text col i) (cells df)))
           (seq 0 (nrows df)).

Definition ends_with_slash (p : str) : bool := N.eqb (last p 0%N) 47.

(** [os.path.exists(p)]: a path written with a final slash exists only
    as a directory. *)
Definition os_path_exists (p : str) : M bool :=
  fun s =>
    (Ok match disk s p with
        | Some Dir => true
        | Some (File _) => negb (ends_with_slash p)
        | None => false
        end, s).

(** [os.makedirs(p, exist_ok=True)] *)
Definition os_makedirs (p : str) : M unit :=
  fun s =>
    match disk s p with
    | None =>
        (Ok tt, {| net := net s; log := log s; disk := fs_set p Dir (disk s) |})
    | Some Dir => (Ok tt, s)
    | Some (File _) => (Raise FileExistsError, s)
    end.

(** Opening [p] for writing and writing [content]: a file that is
    there is truncated. *)
Definition write_file (p content : str) : M unit :=
  fun s =>
    match disk s p with
    | Some Dir => (Raise IsADirectoryError, s)
    | _ =>
        (Ok tt, {| net := net s; log := log s;
                   disk := fs_set p (File content) (disk s) |})
    end.

Definition lift {A : Type} (o : outcome A) : M A := fun s => (o, s).

Definition data_dir : str := lit "data/".

Definition csv_path : str := data_dir ++ lit "smarteyes-herrbagar.csv".

Definition save_as_csv (data : dict) : M unit :=
  there <- os_path_exists data_dir ;;
  (if negb there then os_makedirs data_dir else ret tt) ;;;
  df <- lift (make_DataFrame data) ;;
  write_file csv_path (to_csv_text df).

(** *** main *)

Definition main : M unit :=
  tqdm_write (lit "Scraping SmartEyes") ;;;
  hrefs <- get_hrefs ;;
  dim <- extract_dimensions hrefs ;;
  save_as_csv dim ;;;
  tqdm_write (lit "Number of glasses found: " ++ str_of_nat (length hrefs)) ;;;
  tqdm_write (lit "Script complete!").

(** *** Reading a run

    The pages the network serves when [urls] are requested one after
    the other, and the hrefs [get_hrefs] reads off a page. *)
Fixpoint fetch_seq (urls : list str) (w : World)
  : option (list page * World) :=
  match urls with
  | [] => Some ([], w)
  | u :: urls' =>
      match requests_get u HEADERS w with
      | (Some pg, w') =>
          match fetch_seq urls' w' with
          | Some (pgs, w'') => Some (pg :: pgs, w'')
          | None => None
          end
      | (None, _) => None
      end
  end.

Definition page_hrefs (pg : page) : list (option str) :=
  map (tag_get (lit "href")) (product_block_images pg).

Definition has_links (pg : page) : bool :=
  0 <? length (product_block_images pg).

(** [k in d] *)
Definition has_key (k : str) (d : dict) : Prop :=
  exists l : list value, dict_get k d = Some l.

(** The text [save_as_csv] is to write for the five columns of the
    script: the header, and for row [i] the URL followed by the four
    measurements, with nothing before the URL. *)
Definition header_line : str :=
  lit "url,bredd,brygga,glasbredd,skalmlangd" ++ [newline].

Definition row_line (urls bredd brygga glasbredd skalmlangd : list value)
           (i : nat) : str :=
  csv_field (cell_text urls i) ++ [comma] ++
  csv_field (cell_text bredd i) ++ [comma] ++
  csv_field (cell_text brygga i) ++ [comma] ++
  csv_field (cell_text glasbredd i) ++ [comma] ++
  csv_field (cell_text skalmlangd i) ++ [newline].

Definition five_columns (urls bredd brygga glasbredd skalmlangd : list value)
  : dict :=
  [ (lit "url", urls); (lit "bredd", bredd); (lit "brygga", brygga);
    (lit "glasbredd", glasbredd); (lit "skalmlangd", skalmlangd) ].


(** What a pair of tags adds to the list under [key]: the integer of
    the value, when the name gives that key and the value reads as an
    integer; and what a page adds, pair after pair. *)
Definition pair_values (key : str) (pm : tag * tag) : list value :=
  if str_eqb (derive_key (get_text_strip (fst pm))) key
  then match py_int (token_before space (get_text_strip (snd pm))) with
       | Some z => [VInt z]
       | None => []
       end
  else [].

Definition page_values (key : str) (pg : page) : list value :=
  if length (prop_tags pg) =? length (measurement_tags pg)
  then flat_map (pair_values key)
                (combine (prop_tags pg) (measurement_tags pg))
  else [].

(** What the product [h], served as [pg], adds under [key]: its URL
    first when [key] is 'url'. *)
Definition product_values (key : str) (hp : str * page) : list value :=
  (if str_eqb key (lit "url") then [VStr (product_base ++ fst hp)] else [])
  ++ page_values key (snd hp).

(** The requests of a log, in order. *)
Definition requests_of (l : list event) : list str :=
  flat_map (fun e => match e with Get u => [u] | Write _ => [] end) l.

(** The disk after a run of [save_as_csv] that wrote [text]. *)
Definition disk_after_save (text : str) (d : fs) : fs :=
  fs_set csv_path (File text)
         match d data_dir with
         | None => fs_set data_dir Dir d
         | Some _ => d
         end.

(** The state in which [main] calls [get_hrefs], and the last two
    lines it writes for [n] links. *)
Definition main_start (s : state) : state :=
  {| net := net s;
     log := log s ++ [Write (lit "Scraping SmartEyes")];
     disk := disk s |}.

Definition closing_lines (n : nat) : list event :=
  [ Write (lit "Number of glasses found: " ++ str_of_nat n);
    Write (lit "Script complete!") ].

(** Every product adds exactly one value under every key. *)
Definition complete_products (hps : list (str * page)) : bool :=
  forallb (fun k => forallb (fun hp => length (product_values k hp) =? 1) hps)
          (map fst empty_result).

(** The words of the specification for one product page: the key of a
    name tag, the measurement of a value tag, the pairs aligned by
    position, and what the page stores under a key. *)
Definition spec_key (name : tag) : str :=
  fold_char a_umlaut latin_a (str_lower (get_text_strip name)).

Definition spec_measurement (v : tag) : option Z :=
  py_int (token_before space (get_text_strip v)).

Definition aligned_pairs (pg : page) : list (tag * tag) :=
  if length (prop_tags pg) =? length (measurement_tags pg)
  then combine (prop_tags pg) (measurement_tags pg)
  else [].

Definition stored_under (key : str) (pg : page) : list value :=
  flat_map (fun pm =>
              if str_eqb (spec_key (fst pm)) key
              then match spec_measurement (snd pm) with
                   | Some z => [VInt z]
                   | None => []
                   end
              else [])
           (aligned_pairs pg).

(** The line written for a page whose lists differ in length. *)
Definition mismatch_line (h : str) : event :=
  Write (h ++ lit ": not equal number of properties and measurements").

End Scraper.

(** ** Concrete runtimes

    A small instance of the built-ins, exact on the plain ASCII and
    Latin-1 texts used below, and networks that serve fixed pages. *)
Module Demo.

Definition lower_char (c : N) : N :=
  (if (65 <=? c) && (c <=? 90) then c + 32
   else if (192 <=? c) && (c <=? 222) && negb (c =? 215) then c + 32
   else c)%N.

Definition lower (s : str) : str := map lower_char s.

Definition is_space (c : N) : bool :=
  (((9 <=? c) && (c <=? 13)) || ((28 <=? c) && (c <=? 32)))%N.

Fixpoint lstrip (s : str) : str :=
  match s with
  | [] => []
  | c :: s' => if is_space c then lstrip s' else s
  end.

Definition strip (s : str) : str := rev (lstrip (rev (lstrip s))).

Fixpoint digits_value (acc : Z) (s : str) : option Z :=
  match s with
  | [] => Some acc
  | c :: s' =>
      if ((48 <=? c) && (c <=? 57))%N
      then digits_value (10 * acc + Z.of_N (c - 48)) s'
      else None
  end.

(** [int] on an optional sign followed by decimal digits. *)
Definition int (s : str) : option Z :=
  match s with
  | [] => None
  | 45%N :: (_ :: _) as d => option_map Z.opp (digits_value 0 d)
  | 43%N :: (_ :: _) as d => digits_value 0 d
  | _ => digits_value 0 s
  end.

Definition no_page : page :=
  {| product_block_images := []; prop_tags := []; measurement_tags := [] |}.

Fixpoint serve (site : list (str * page)) (url : str) : page :=
  match site with
  | [] => no_page
  | (u, pg) :: site' => if str_eqb url u then pg else serve site' url
  end.

(** A network that answers from a fixed table; a URL that is not in
    the table gets a page on which no selector matches. *)
Definition site_runtime (site : list (str * page)) : Runtime :=
  {| World := unit;
     requests_get := fun url _ w => (Some (serve site url), w);
     str_lower := lower;
     str_strip := strip;
     py_int := int |}.

(** A network that answers every request with the same page. *)
Definition constant_runtime (pg : page) : Runtime :=
  {| World := unit;
     requests_get := fun _ _ w => (Some pg, w);
     str_lower := lower;
     str_strip := strip;
     py_int := int |}.

Definition link (href : string) : tag :=
  {| attrs := [(lit "class", lit "product-block-images"); (lit "href", lit href)];
     strings := [] |}.

Definition link_without_href : tag :=
  {| attrs := [(lit "class", lit "product-block-images")]; strings := [] |}.

Definition text_of (s : str) : tag := {| attrs := []; strings := [s] |}.

Definition text (s : string) : tag := text_of (lit s).

(** The label of the temple length, with its "ä" as one code point. *)
Definition skalmlangd_label : tag :=
  text_of (lit "Skalml" ++ [a_umlaut] ++ lit "ngd").

Definition listing (links : list tag) : page :=
  {| product_block_images := links; prop_tags := []; measurement_tags := [] |}.

Definition product (props measurements : list tag) : page :=
  {| product_block_images := []; prop_tags := props;
     measurement_tags := measurements |}.

Definition links_everywhere : Runtime := constant_runtime (listing [link "/p"]).

Definition empty_disk : fs := fun _ => None.

Definition st (R : Runtime) (w : @World R) (l : list event) (d : fs)
  : @state R :=
  {| net := w; log := l; disk := d |}.

Definition start (R : Runtime) (w : @World R) : @state R :=
  st R w [] empty_disk.

Definition page2 : str := listing_base ++ lit "?page=2".

Definition product1 : str := lit "/glasogon/1/1".

Definition product1_url : str := product_base ++ product1.

(** A disk on which an older CSV is already there. *)
Definition disk_with_old_csv : fs :=
  fs_set csv_path (File (lit "old")) (fs_set data_dir Dir empty_disk).

(** One listing page with two products, then the empty page. *)
Definition shop : list (str * page) :=
  [ (listing_base, listing [link "/glasogon/1/1"; link "/glasogon/2/2"]);
    (product_base ++ lit "/glasogon/1/1",
     product [text "Bredd"; text " Brygga "; text "Glasbredd"; skalmlangd_label]
             [text "140 mm"; text "18 mm"; text "54 mm"; text "150 mm"]);
    (product_base ++ lit "/glasogon/2/2",
     product [text "Bredd"; text "Brygga"; text "Glasbredd"; skalmlangd_label]
             [text "138 mm"; text "17 mm"; text "52 mm"; text "145 mm"]) ].

(** One product whose page has a name without a value. *)
Definition shop_mismatch : list (str * page) :=
  [ (listing_base, listing [link "/glasogon/1/1"]);
    (product_base ++ lit "/glasogon/1/1",
     product [text "Bredd"; text "Brygga"] [text "140 mm"]) ].

(** One product whose page has a property called URL. *)
Definition shop_url_label : list (str * page) :=
  [ (listing_base, listing [link "/glasogon/1/1"]);
    (product_base ++ lit "/glasogon/1/1",
     product [text "URL"] [text "5 mm"]) ].

(** Two products; the first has a value that is no number. *)
Definition shop_bad_value : list (str * page) :=
  [ (listing_base, listing [link "/glasogon/1/1"; link "/glasogon/2/2"]);
    (product_base ++ lit "/glasogon/1/1",
     product [text "Bredd"; text "Brygga"] [text "abc mm"; text "18 mm"]);
    (product_base ++ lit "/glasogon/2/2",
     product [text "Bredd"; text "Brygga"] [text "138 mm"; text "17 mm"]) ].

(** A listing page whose only anchor has no href. *)
Definition shop_no_href : list (str * page) :=
  [ (listing_base, listing [link_without_href]) ].

Fixpoint find_page (site : list (str * page)) (url : str) : option page :=
  match site with
  | [] => None
  | (u, pg) :: site' => if str_eqb url u then Some pg else find_page site' url
  end.

(** A network on which a request for a URL outside the table raises. *)
Definition strict_runtime (site : list (str * page)) : Runtime :=
  {| World := unit;
     requests_get := fun url _ w => (find_page site url, w);
     str_lower := lower;
     str_strip := strip;
     py_int := int |}.

Definition product2 : str := lit "/glasogon/2/2".

Definition product2_url : str := product_base ++ product2.

Definition full_page (bredd brygga glasbredd skalmlangd : string) : page :=
  product [text "Bredd"; text "Brygga"; text "Glasbredd"; skalmlangd_label]
          [text bredd; text brygga; text glasbredd; text skalmlangd].

(** Only the first listing page and the first product can be reached. *)
Definition shop_partly_down : list (str * page) :=
  [ (listing_base, listing [link "/glasogon/1/1"; link "/glasogon/2/2"]);
    (product1_url, full_page "140 mm" "18 mm" "54 mm" "150 mm") ].


Definition product3 : str := lit "/glasogon/3/3".

Definition product3_url : str := product_base ++ product3.

(** Three products; the page of the second has a name without a value. *)
Definition shop_middle_mismatch : list (str * page) :=
  [ (product1_url, full_page "140 mm" "18 mm" "54 mm" "150 mm");
    (product2_url, product [text "Bredd"; text "Brygga"] [text "139 mm"]);
    (product3_url, full_page "138 mm" "17 mm" "52 mm" "145 mm") ].

(** One product with the width named twice; the first width is no
    number. *)
Definition shop_width_twice : list (str * page) :=
  [ (listing_base, listing [link "/glasogon/1/1"]);
    (product1_url,
     product [text "Bredd"; text "Bredd"; text "Brygga"; text "Glasbredd";
              skalmlangd_label]
             [text "abc mm"; text "140 mm"; text "18 mm"; text "54 mm";
              text "150 mm"]) ].


End Demo.

(** * Properties *)

(** ** Strings and dictionaries *)

Lemma str_eqb_refl (s : str) : str_eqb s s = true.
Proof.
  induction s as [|c s IH]; simpl; [reflexivity|].
  now rewrite N.eqb_refl, IH.
Qed.

Lemma str_eqb_eq (a b : str) : str_eqb a b = true <-> a = b.
Proof.
  split.
  - revert b; induction a as [|x a IH]; intros [|y b] H; simpl in H;
      try discriminate; [reflexivity|].
    apply andb_true_iff in H as [Hx Hab].
    apply N.eqb_eq in Hx. apply IH in Hab. now subst.
  - intros ->. apply str_eqb_refl.
Qed.

Lemma str_eqb_neq (a b : str) : a <> b -> str_eqb a b = false.
Proof.
  intros H. destruct (str_eqb a b) eqn:E; [|reflexivity].
  apply str_eqb_eq in E. contradiction.
Qed.

(** Splitting at a one-character separator and taking the first piece
    gives the text before the first occurrence of the character. *)
Lemma split_from_first (c : N) (s cur : str) :
  nth_error (split_from [c] 0 cur s) 0 = Some (cur ++ token_before c s).
Proof.
  revert cur; induction s as [|x s IH]; intros cur;
    cbn [split_from starts_with token_before length Nat.sub].
  - now rewrite app_nil_r.
  - rewrite andb_true_r, (N.eqb_sym c x).
    destruct (N.eqb x c).
    + now rewrite app_nil_r.
    + rewrite IH, <- app_assoc. reflexivity.
Qed.

Lemma str_split_first (c : N) (s : str) :
  nth_error (str_split [c] s) 0 = Some (token_before c s).
Proof. unfold str_split. now rewrite split_from_first. Qed.

(** Replacing a one-character string by another is a character fold. *)
Lemma str_replace_char (a b : N) (s : str) :
  str_replace [a] [b] s = fold_char a b s.
Proof.
  unfold str_replace.
  induction s as [|x s IH]; simpl; [reflexivity|].
  rewrite andb_true_r, (N.eqb_sym a x).
  destruct (N.eqb x a); simpl; now rewrite IH.
Qed.

Lemma dict_get_set_same (k : str) (l l0 : list value) (d : dict) :
  dict_get k d = Some l0 -> dict_get k (dict_set k l d) = Some l.
Proof.
  induction d as [|[k' l'] d IH]; simpl; [discriminate|].
  destruct (str_eqb k k') eqn:E; simpl; rewrite E; auto.
Qed.

Lemma dict_get_set_other (k k' : str) (l : list value) (d : dict) :
  k <> k' -> dict_get k (dict_set k' l d) = dict_get k d.
Proof.
  intros Hne. induction d as [|[k0 l0] d IH]; simpl; [reflexivity|].
  destruct (str_eqb k' k0) eqn:E; simpl.
  - apply str_eqb_eq in E; subst k0.
    now rewrite (str_eqb_neq Hne).
  - now rewrite IH.
Qed.

Lemma dict_set_keys (k : str) (l : list value) (d : dict) :
  map fst (dict_set k l d) = map fst d.
Proof.
  induction d as [|[k' l'] d IH]; simpl; [reflexivity|].
  destruct (str_eqb k k'); simpl; now rewrite ?IH.
Qed.

Section Properties.

Context {R : Runtime}.

(** ** get_hrefs *)

Lemma get_hrefs_loop_stops (before : list str) :
  forall (last_url : str) (after : list str) (pgs : list page) (pg : page)
         (w1 w2 : World) (hrefs : list (option str)) (s : state),
    fetch_seq before (net s) = Some (pgs, w1) ->
    forallb has_links pgs = true ->
    requests_get last_url HEADERS w1 = (Some pg, w2) ->
    product_block_images pg = [] ->
    get_hrefs_loop (before ++ last_url :: after) hrefs s =
      (Ok (hrefs ++ flat_map page_hrefs pgs),
       {| net := w2;
          log := log s ++ map Get before
                       ++ [Get last_url; Write (lit "Last page: " ++ last_url)];
          disk := disk s |}).
Proof.
  induction before as [|u before IH];
    intros last_url after pgs pg w1 w2 hrefs s Hf Hall Hlast Hempty.
  - simpl in Hf. injection Hf as <- <-.
    simpl. unfold bind at 1. unfold http_get. rewrite Hlast.
    rewrite Hempty. simpl. rewrite app_nil_r.
    unfold bind, tqdm_write, ret. simpl.
    rewrite <- app_assoc. reflexivity.
  - simpl in Hf.
    destruct (requests_get u HEADERS (net s)) as [[p|] w'] eqn:Hu;
      [|discriminate].
    destruct (fetch_seq before w') as [[pgs' w'']|] eqn:Hrest;
      [|discriminate].
    injection Hf as <- <-.
    simpl in Hall. apply andb_true_iff in Hall as [Hp Hall].
    simpl. unfold bind at 1. unfold http_get. rewrite Hu.
    rewrite length_map. unfold has_links in Hp. rewrite Hp.
    rewrite (IH last_url after pgs' pg w'' w2 _
                {| net := w'; log := log s ++ [Get u]; disk := disk s |}
                Hrest Hall Hlast Hempty).
    simpl. unfold page_hrefs at 2.
    rewrite <- !app_assoc. reflexivity.
Qed.

Lemma get_hrefs_loop_exhausts (urls : list str) :
  forall (pgs : list page) (w' : World) (hrefs : list (option str))
         (s : state),
    fetch_seq urls (net s) = Some (pgs, w') ->
    forallb has_links pgs = true ->
    get_hrefs_loop urls hrefs s =
      (Ok (hrefs ++ flat_map page_hrefs pgs),
       {| net := w'; log := log s ++ map Get urls; disk := disk s |}).
Proof.
  induction urls as [|u urls IH]; intros pgs w' hrefs s Hf Hall.
  - simpl in Hf. injection Hf as <- <-.
    simpl. rewrite !app_nil_r. unfold ret. now destruct s.
  - simpl in Hf.
    destruct (requests_get u HEADERS (net s)) as [[p|] w1] eqn:Hu;
      [|discriminate].
    destruct (fetch_seq urls w1) as [[pgs' w'']|] eqn:Hrest;
      [|discriminate].
    injection Hf as <- <-.
    simpl in Hall. apply andb_true_iff in Hall as [Hp Hall].
    simpl. unfold bind at 1. unfold http_get. rewrite Hu.
    rewrite length_map. unfold has_links in Hp. rewrite Hp.
    rewrite (IH pgs' w'' _
                {| net := w1; log := log s ++ [Get u]; disk := disk s |}
                Hrest Hall).
    simpl. unfold page_hrefs at 2.
    rewrite <- !app_assoc. reflexivity.
Qed.

(** C4. [get_hrefs] stops at the first listing page without a matched
    anchor: the pages before it contribute all their hrefs, in order;
    the empty page is the last one requested; the line written names
    its URL; no later candidate is requested. *)
Theorem get_hrefs_stops_at_first_empty_page :
  forall (before after : list str) (last_url : str) (pgs : list page)
         (pg : page) (w1 w2 : World) (s : state),
    listing_urls = before ++ last_url :: after ->
    fetch_seq before (net s) = Some (pgs, w1) ->
    forallb has_links pgs = true ->
    requests_get last_url HEADERS w1 = (Some pg, w2) ->
    product_block_images pg = [] ->
    get_hrefs s =
      (Ok (flat_map page_hrefs pgs),
       {| net := w2;
          log := log s ++ map Get before
                       ++ [Get last_url; Write (lit "Last page: " ++ last_url)];
          disk := disk s |}).
Proof.
  intros before after last_url pgs pg w1 w2 s Hurls Hf Hall Hlast Hempty.
  unfold get_hrefs. rewrite Hurls.
  erewrite get_hrefs_loop_stops by eassumption. reflexivity.
Qed.

(** C5. The candidates are the bare listing URL followed by the URL
    with [?page=n] for n from 2 to 100, a hundred in all; when every
    one of them has links, [get_hrefs] returns what it gathered after
    the hundredth request and writes no line. *)
Theorem get_hrefs_candidates_and_cap :
  length listing_urls = 100 /\
  nth_error listing_urls 0 = Some listing_base /\
  (forall n : nat,
      2 <= n <= 100 ->
      nth_error listing_urls (n - 1)
      = Some (listing_base ++ lit "?page=" ++ str_of_nat n)) /\
  (forall (pgs : list page) (w' : World) (s : state),
      fetch_seq listing_urls (net s) = Some (pgs, w') ->
      forallb has_links pgs = true ->
      get_hrefs s =
        (Ok (flat_map page_hrefs pgs),
         {| net := w'; log := log s ++ map Get listing_urls;
            disk := disk s |})).
Proof.
  split; [|split; [|split]].
  - unfold listing_urls. cbn [length]. now rewrite length_map, length_seq.
  - reflexivity.
  - intros n Hn. unfold listing_urls.
    replace (n - 1) with (S (n - 2)) by lia. cbn [nth_error].
    rewrite nth_error_map, nth_error_seq.
    destruct (Nat.ltb_spec (n - 2) 99) as [_|H]; [|lia].
    cbn [option_map]. now replace (2 + (n - 2)) with n by lia.
  - intros pgs w' s Hf Hall. unfold get_hrefs.
    erewrite get_hrefs_loop_exhausts by eassumption. reflexivity.
Qed.

(** ** extract_dimensions *)

Lemma get_text_strip_single (a : list (str * str)) (name : str) :
  get_text_strip {| attrs := a; strings := [name] |} = str_strip name.
Proof.
  unfold get_text_strip. simpl.
  destruct (str_strip name); simpl; [reflexivity|].
  now rewrite app_nil_r.
Qed.

Lemma derive_key_fold (prop : str) :
  derive_key prop = fold_char a_umlaut latin_a (str_lower prop).
Proof. apply str_replace_char. Qed.

Lemma extract_loop_app (a : list (option str)) :
  forall (b : list (option str)) (result : dict) (s : state),
    extract_loop (a ++ b) result s =
      match extract_loop a result s with
      | (Ok result', s') => extract_loop b result' s'
      | (Raise e, s') => (Raise e, s')
      end.
Proof.
  induction a as [|h a IH]; intros b result s; simpl; [reflexivity|].
  unfold bind.
  destruct (extract_page h result s) as [[r|e] s1]; [apply IH|reflexivity].
Qed.

Lemma extract_loop_None (hrefs : list (option str)) :
  In None hrefs ->
  forall (result : dict) (s : state),
    exists e s', extract_loop hrefs result s = (Raise e, s').
Proof.
  induction hrefs as [|h hrefs IH]; intros Hin result s; [destruct Hin|].
  simpl. unfold bind.
  destruct Hin as [->|Hin].
  - simpl. unfold raise. eauto.
  - destruct (extract_page h result s) as [[r|e] s1]; eauto.
Qed.

(** The body of the outer loop on a product page whose two lists
    differ in length: the URL is recorded, no other column changes, and
    one line naming the href is written. *)
Lemma extract_page_length_mismatch :
  forall (h : str) (result : dict) (urls : list value) (pg : page)
         (w' : World) (s : state),
    dict_get (lit "url") result = Some urls ->
    requests_get (product_base ++ h) HEADERS (net s) = (Some pg, w') ->
    length (prop_tags pg) <> length (measurement_tags pg) ->
    exists result' : dict,
      extract_page (Some h) result s =
        (Ok result',
         {| net := w';
            log := log s ++
                   [Get (product_base ++ h);
                    Write (h ++ lit ": not equal number of properties and measurements")];
            disk := disk s |}) /\
      dict_get (lit "url") result' = Some (urls ++ [VStr (product_base ++ h)]) /\
      (forall k : str, k <> lit "url" -> dict_get k result' = dict_get k result) /\
      map fst result' = map fst result.
Proof.
  intros h result urls pg w' s Hurl Hget Hlen.
  exists (dict_set (lit "url") (urls ++ [VStr (product_base ++ h)]) result).
  split; [|split; [|split]].
  - unfold extract_page, dict_append. rewrite Hurl.
    unfold bind at 1. unfold http_get. rewrite Hget.
    apply Nat.eqb_neq in Hlen. rewrite Hlen.
    unfold bind, tqdm_write, ret. simpl.
    now rewrite <- app_assoc.
  - eapply dict_get_set_same; eassumption.
  - intros k Hk. now apply dict_get_set_other.
  - apply dict_set_keys.
Qed.

(** The body of the inner loop on a name tag [p] and a value tag [m]
    that can be stored: the key is the text of [p], trimmed,
    lower-cased, with "ä" folded to "a", and what is stored under it is
    the integer read from the text of [m] up to its first space. *)
Lemma process_pair_stores :
  forall (href : str) (p m : tag) (result : dict) (col : list value)
         (z : Z) (s : state),
    dict_get (fold_char a_umlaut latin_a (str_lower (get_text_strip p)))
             result = Some col ->
    py_int (token_before space (get_text_strip m)) = Some z ->
    (exists result' : dict,
        process_pair href p m result s = (Ok result', s) /\
        dict_get (fold_char a_umlaut latin_a (str_lower (get_text_strip p)))
                 result' = Some (col ++ [VInt z]) /\
        (forall k : str,
            k <> fold_char a_umlaut latin_a (str_lower (get_text_strip p)) ->
            dict_get k result' = dict_get k result)) /\
    (forall (a : list (str * str)) (name : str),
        get_text_strip {| attrs := a; strings := [name] |} = str_strip name).
Proof.
  intros href p m result col z s Hkey Hint.
  split; [|apply get_text_strip_single].
  exists (dict_set (fold_char a_umlaut latin_a (str_lower (get_text_strip p)))
                   (col ++ [VInt z]) result).
  split; [|split].
  - unfold process_pair, try_append.
    rewrite derive_key_fold, Hkey, str_split_first, Hint. reflexivity.
  - eapply dict_get_set_same; eassumption.
  - intros k Hk. now apply dict_get_set_other.
Qed.

(** C10. An anchor without [href] yields [None] in the list of
    [get_hrefs]; it counts for the page being non-empty and for the
    length of the list; [extract_dimensions] then raises, with
    [TypeError] when it reaches the entry. *)
Theorem missing_href_is_None_and_fatal :
  forall (before after : list str) (last_url : str) (pgs : list page)
         (pg : page) (w1 w2 : World) (s : state) (t : tag),
    listing_urls = before ++ last_url :: after ->
    fetch_seq before (net s) = Some (pgs, w1) ->
    forallb has_links pgs = true ->
    requests_get last_url HEADERS w1 = (Some pg, w2) ->
    product_block_images pg = [] ->
    In t (flat_map product_block_images pgs) ->
    tag_get (lit "href") t = None ->
    (forall pg0 : page, In t (product_block_images pg0) -> has_links pg0 = true) /\
    exists (hrefs : list (option str)) (s1 : state),
      get_hrefs s = (Ok hrefs, s1) /\
      In None hrefs /\
      length hrefs = length (flat_map product_block_images pgs) /\
      (exists (e : exn) (s2 : state),
          extract_dimensions hrefs s1 = (Raise e, s2)) /\
      (forall (pre post : list (option str)) (r : dict) (s2 : state),
          hrefs = pre ++ None :: post ->
          extract_dimensions pre s1 = (Ok r, s2) ->
          extract_dimensions hrefs s1 = (Raise TypeError, s2)).
Proof.
  intros before after last_url pgs pg w1 w2 s t Hurls Hf Hall Hlast Hempty
         Hin Hnone.
  split.
  - intros pg0 Hin0. unfold has_links.
    destruct (product_block_images pg0); [destruct Hin0|reflexivity].
  - exists (flat_map page_hrefs pgs). eexists. split.
    + unfold get_hrefs. rewrite Hurls.
      erewrite get_hrefs_loop_stops by eassumption. reflexivity.
    + assert (Hmap : flat_map page_hrefs pgs =
                     map (tag_get (lit "href"))
                         (flat_map product_block_images pgs)).
      { clear. induction pgs as [|q pgs IH]; simpl; [reflexivity|].
        now rewrite map_app, IH. }
      assert (HinN : In None (flat_map page_hrefs pgs)).
      { rewrite Hmap, <- Hnone. now apply in_map. }
      split; [exact HinN|]. split; [|split].
      * now rewrite Hmap, length_map.
      * unfold extract_dimensions. now apply extract_loop_None.
      * intros pre post r s2 Hsplit Hpre. unfold extract_dimensions in *.
        rewrite Hsplit, extract_loop_app, Hpre. reflexivity.
Qed.

(** *** The extractor returns

    Neither loop can raise by itself: a pair that cannot be stored is
    skipped with a line, and the indices stay within both lists.  What
    is left to raise is the network, and an href that is [None]. *)

Lemma has_key_set (k k' : str) (l : list value) (d : dict) :
  has_key k d -> has_key k (dict_set k' l d).
Proof.
  unfold has_key. intros [l0 H].
  induction d as [|[k0 l1] d IH]; simpl in *; [discriminate|].
  destruct (str_eqb k' k0) eqn:E'; simpl.
  - destruct (str_eqb k k0); [now eexists | now exists l0].
  - destruct (str_eqb k k0); [now eexists | now apply IH].
Qed.

(** X13. A pair whose key is not a key of the dictionary, or whose
    value does not read as an integer, leaves the dictionary as it was
    and writes one line, made of the href, the text of the value and the
    key; nothing is raised. *)
Lemma process_pair_skip (href : str) (p m : tag) (result : dict) (s : state) :
  dict_get (derive_key (get_text_strip p)) result = None \/
  py_int (token_before space (get_text_strip m)) = None ->
  process_pair href p m result s =
    (Ok result,
     {| net := net s;
        log := log s ++
               [Write (href ++ lit ": invalid measurement value '"
                            ++ get_text_strip m ++ lit "' or key '"
                            ++ derive_key (get_text_strip p) ++ lit "'.")];
        disk := disk s |}).
Proof.
  intros H. unfold process_pair, try_append.
  rewrite str_split_first.
  destruct (dict_get (derive_key (get_text_strip p)) result) as [l|];
    [|reflexivity].
  destruct H as [H|H]; [discriminate|]. now rewrite H.
Qed.

Lemma process_pair_returns (href : str) (p m : tag) (result : dict) (s : state) :
  exists (result' : dict) (s' : state),
    process_pair href p m result s = (Ok result', s') /\
    net s' = net s /\ disk s' = disk s /\
    (forall k : str, has_key k result -> has_key k result').
Proof.
  unfold process_pair.
  destruct (try_append _ _ result) as [r|e] eqn:E.
  - exists r, s. repeat split; auto.
    unfold try_append in E.
    destruct (dict_get _ result) as [l|]; [|discriminate].
    destruct (nth_error _ 0); [|discriminate].
    destruct (py_int _); [|discriminate].
    injection E as <-. intros k Hk. now apply has_key_set.
  - eexists. eexists. unfold bind, tqdm_write, ret. simpl.
    repeat split; auto.
Qed.

Lemma pairs_loop_returns (href : str) (props measurements : list tag)
      (idx : list nat) :
  Forall (fun i => i < length props /\ i < length measurements) idx ->
  forall (result : dict) (s : state),
    exists (result' : dict) (s' : state),
      pairs_loop href props measurements idx result s = (Ok result', s') /\
      net s' = net s /\ disk s' = disk s /\
      (forall k : str, has_key k result -> has_key k result').
Proof.
  induction 1 as [|i idx [Hp Hm] _ IH]; intros result s; simpl.
  - exists result, s. repeat split; auto.
  - apply nth_error_Some in Hp. apply nth_error_Some in Hm.
    destruct (nth_error props i) as [p|]; [|contradiction].
    destruct (nth_error measurements i) as [m|]; [|contradiction].
    unfold bind.
    destruct (process_pair_returns href p m result s)
      as (r1 & s1 & -> & Hn1 & Hd1 & Hk1).
    destruct (IH r1 s1) as (r2 & s2 & -> & Hn2 & Hd2 & Hk2).
    exists r2, s2. repeat split; try congruence. auto.
Qed.

Lemma extract_page_returns (h : str) (result : dict) (s : state) :
  has_key (lit "url") result ->
  fst (requests_get (product_base ++ h) HEADERS (net s)) <> None ->
  exists (result' : dict) (s' : state),
    extract_page (Some h) result s = (Ok result', s') /\
    net s' = snd (requests_get (product_base ++ h) HEADERS (net s)) /\
    disk s' = disk s /\
    has_key (lit "url") result'.
Proof.
  intros [urls Hurl] Hnet.
  unfold extract_page, dict_append. rewrite Hurl.
  unfold bind at 1. unfold http_get.
  destruct (requests_get (product_base ++ h) HEADERS (net s)) as [[pg|] w];
    [|now elim Hnet].
  assert (Hk : has_key (lit "url")
                 (dict_set (lit "url") (urls ++ [VStr (product_base ++ h)])
                           result)).
  { apply has_key_set. now exists urls. }
  destruct (Nat.eqb_spec (length (prop_tags pg)) (length (measurement_tags pg)))
    as [Hlen|Hlen].
  - edestruct (@pairs_loop_returns h (prop_tags pg) (measurement_tags pg)
                 (seq 0 (length (measurement_tags pg))))
      as (r & s' & Hrun & Hn & Hd & Hkeys).
    { apply Forall_forall. intros i Hi. apply in_seq in Hi. lia. }
    rewrite Hrun. exists r, s'. repeat split; auto.
  - eexists. eexists. unfold bind, tqdm_write, ret. simpl.
    repeat split; auto.
Qed.

(** With a network that answers every request, [extract_dimensions]
    returns for every list of hrefs that are strings. *)
Lemma extract_dimensions_returns (hs : list str) :
  (forall (url : str) (w : World), fst (requests_get url HEADERS w) <> None) ->
  forall s : state,
    exists (result : dict) (s' : state),
      extract_dimensions (map Some hs) s = (Ok result, s') /\
      disk s' = disk s /\
      has_key (lit "url") result.
Proof.
  intros Hnet s. unfold extract_dimensions.
  assert (H0 : has_key (lit "url") empty_result) by (now exists []).
  revert H0. generalize empty_result as result. revert s.
  induction hs as [|h hs IH]; intros s result Hk; cbn [map extract_loop].
  - exists result, s. unfold ret. auto.
  - unfold bind.
    destruct (@extract_page_returns h result s Hk (Hnet _ _))
      as (r1 & s1 & -> & _ & Hd1 & Hk1).
    destruct (IH s1 r1 Hk1) as (r2 & s2 & -> & Hd2 & Hk2).
    exists r2, s2. repeat split; try congruence; auto.
Qed.

(** ** save_as_csv *)

Lemma csv_line_many (a b : str) (l : list str) :
  csv_line (a :: b :: l) = join [comma] (map csv_field (a :: b :: l)) ++ [newline].
Proof. destruct a; reflexivity. Qed.

Lemma five_columns_frame (urls bredd brygga glasbredd skalmlangd : list value) :
  length bredd = length urls ->
  length brygga = length urls ->
  length glasbredd = length urls ->
  length skalmlangd = length urls ->
  exists df : DataFrame,
    make_DataFrame (five_columns urls bredd brygga glasbredd skalmlangd) = Ok df /\
    to_csv_text df =
      header_line ++
      flat_map (row_line urls bredd brygga glasbredd skalmlangd)
               (seq 0 (length urls)).
Proof.
  intros H1 H2 H3 H4.
  unfold make_DataFrame, five_columns. cbn [forallb snd].
  rewrite H1, H2, H3, H4, Nat.eqb_refl. cbn [andb].
  eexists. split; [reflexivity|].
  unfold to_csv_text. cbn [columns cells nrows map fst snd].
  f_equal.
  apply flat_map_ext. intros i.
  rewrite csv_line_many. unfold row_line. cbn [map join].
  rewrite <- !app_assoc. reflexivity.
Qed.

Lemma csv_path_not_data_dir : csv_path <> data_dir.
Proof. intros H. apply str_eqb_eq in H. discriminate H. Qed.

Lemma fs_set_same (p : str) (e : entry) (f : fs) : fs_set p e f p = Some e.
Proof. unfold fs_set. now rewrite str_eqb_refl. Qed.

Lemma fs_set_other (p q : str) (e : entry) (f : fs) :
  q <> p -> fs_set p e f q = f q.
Proof. intros H. unfold fs_set. now rewrite str_eqb_neq. Qed.

(** C7. [save_as_csv] makes sure [data/] is a directory, leaving it
    alone when it is one already, and puts at
    [data/smarteyes-herrbagar.csv] the header
    [url,bredd,brygga,glasbredd,skalmlangd] followed by one line per
    row with those five cells, whatever was at that path before. *)
Theorem save_as_csv_writes_table :
  forall (urls bredd brygga glasbredd skalmlangd : list value) (s : state),
    length bredd = length urls ->
    length brygga = length urls ->
    length glasbredd = length urls ->
    length skalmlangd = length urls ->
    (forall c : str, disk s data_dir <> Some (File c)) ->
    disk s csv_path <> Some Dir ->
    exists s' : state,
      save_as_csv (five_columns urls bredd brygga glasbredd skalmlangd) s
        = (Ok tt, s') /\
      net s' = net s /\
      log s' = log s /\
      disk s' data_dir = Some Dir /\
      disk s' csv_path =
        Some (File (header_line ++
                    flat_map (row_line urls bredd brygga glasbredd skalmlangd)
                             (seq 0 (length urls)))) /\
      (forall p : str,
          p <> csv_path -> p <> data_dir -> disk s' p = disk s p) /\
      (disk s data_dir = Some Dir ->
       forall p : str, p <> csv_path -> disk s' p = disk s p).
Proof.
  intros urls bredd brygga glasbredd skalmlangd s H1 H2 H3 H4 Hdir Hcsv.
  destruct (five_columns_frame urls bredd brygga glasbredd skalmlangd
              H1 H2 H3 H4) as (df & Hdf & Htext).
  unfold save_as_csv, bind, os_path_exists, os_makedirs, lift, ret,
    write_file.
  rewrite Hdf, Htext.
  pose proof csv_path_not_data_dir as Hne.
  assert (Hne' : data_dir <> csv_path) by (intros E; now apply Hne).
  destruct (disk s data_dir) as [[|c]|] eqn:Hd.
  - cbv beta iota zeta. cbn [negb net log disk]. cbv beta iota zeta.
    destruct (disk s csv_path) as [[|c]|] eqn:Hc; [contradiction| |];
      (eexists; split; [reflexivity|]; cbn [net log disk];
       rewrite fs_set_same, (fs_set_other _ _ Hne'), Hd;
       repeat split; auto; intros; now rewrite fs_set_other).
  - exfalso. now apply (Hdir c).
  - cbv beta iota zeta. cbn [negb]. cbv beta iota zeta. rewrite Hd.
    cbn [net log disk]. rewrite (fs_set_other _ _ Hne).
    destruct (disk s csv_path) as [[|c]|] eqn:Hc; [contradiction| |];
      (eexists; split; [reflexivity|]; cbn [net log disk];
       rewrite fs_set_same, (fs_set_other _ _ Hne'), fs_set_same;
       repeat split; auto; try discriminate;
       intros; now rewrite !fs_set_other).
Qed.

Lemma dict_get_In (k : str) (l : list value) (d : dict) :
  dict_get k d = Some l -> In (k, l) d.
Proof.
  induction d as [|[k' l'] d IH]; simpl; [discriminate|].
  destruct (str_eqb k k') eqn:E.
  - intros [= ->]. apply str_eqb_eq in E. subst. now left.
  - intros H. right. now apply IH.
Qed.

Lemma make_DataFrame_ok (data : dict) (df : DataFrame) :
  make_DataFrame data = Ok df ->
  forall (k : str) (l : list value), In (k, l) data -> length l = nrows df.
Proof.
  unfold make_DataFrame. destruct data as [|[k0 l0] data]; [intros _ k l []|].
  destruct (forallb _ _) eqn:Hall; [|discriminate].
  intros [= <-] k l Hin. cbn [nrows].
  rewrite forallb_forall in Hall.
  apply Hall in Hin. now apply Nat.eqb_eq in Hin.
Qed.

Lemma make_DataFrame_unequal (data : dict) (k1 k2 : str) (l1 l2 : list value) :
  In (k1, l1) data -> In (k2, l2) data -> length l1 <> length l2 ->
  make_DataFrame data = Raise ValueError.
Proof.
  intros H1 H2 Hne.
  destruct (make_DataFrame data) as [df|e] eqn:E.
  - exfalso. apply Hne.
    transitivity (nrows df); [|symmetry];
      eapply make_DataFrame_ok; eassumption.
  - unfold make_DataFrame in E. destruct data as [|[k0 l0] data];
      [discriminate|].
    destruct (forallb _ _); [discriminate|]. now symmetry.
Qed.

(** C9. [save_as_csv] returns only for lists of one length.  When a
    list is shorter than the list of URLs the DataFrame is refused with
    [ValueError]: nothing is written at the path of the CSV, while the
    directory is there by then. *)
Theorem save_as_csv_needs_equal_lengths :
  forall (data : dict) (s : state),
    (forall s' : state,
        save_as_csv data s = (Ok tt, s') ->
        forall (k1 k2 : str) (l1 l2 : list value),
          In (k1, l1) data -> In (k2, l2) data -> length l1 = length l2) /\
    (forall (urls : list value) (k : str) (l : list value),
        dict_get (lit "url") data = Some urls ->
        dict_get k data = Some l ->
        length l < length urls ->
        (forall c : str, disk s data_dir <> Some (File c)) ->
        exists s' : state,
          save_as_csv data s = (Raise ValueError, s') /\
          disk s' csv_path = disk s csv_path /\
          disk s' data_dir = Some Dir /\
          (forall p : str, p <> data_dir -> disk s' p = disk s p)).
Proof.
  intros data s. split.
  - intros s' Hrun k1 k2 l1 l2 H1 H2.
    destruct (make_DataFrame data) as [df|e] eqn:E.
    + transitivity (nrows df); [|symmetry];
        eapply make_DataFrame_ok; eassumption.
    + exfalso. revert Hrun.
      unfold save_as_csv, bind, os_path_exists, os_makedirs, lift, ret.
      rewrite E.
      change (ends_with_slash data_dir) with true.
      destruct (disk s data_dir) as [[|c]|] eqn:Hd; cbv beta iota zeta;
        cbn [negb]; cbv beta iota zeta; rewrite ?Hd; discriminate.
  - intros urls k l Hu Hk Hlt Hdir.
    assert (E : make_DataFrame data = Raise ValueError).
    { eapply make_DataFrame_unequal;
        [apply dict_get_In, Hk | apply dict_get_In, Hu | lia]. }
    pose proof csv_path_not_data_dir as Hne.
    unfold save_as_csv, bind, os_path_exists, os_makedirs, lift, ret.
    rewrite E.
    destruct (disk s data_dir) as [[|c]|] eqn:Hd.
    + exists s. cbv beta iota zeta. cbn [negb]. cbv beta iota zeta.
      repeat split; auto.
    + exfalso. now apply (Hdir c).
    + eexists. cbv beta iota zeta. cbn [negb]. cbv beta iota zeta.
      rewrite Hd. split; [reflexivity|]. cbn [disk].
      rewrite fs_set_same, (fs_set_other _ _ Hne).
      repeat split; auto. intros q Hq. now rewrite fs_set_other.
Qed.

(** ** The columns of extract_dimensions *)

Lemma skipn_nth_error (A : Type) (l : list A) (a : nat) (x : A) :
  nth_error l a = Some x -> skipn a l = x :: skipn (S a) l.
Proof.
  revert a; induction l as [|y l IH]; intros [|a] H; simpl in H;
    try discriminate.
  - now injection H as ->.
  - now apply IH.
Qed.

Lemma requests_of_app (l1 l2 : list event) :
  requests_of (l1 ++ l2) = requests_of l1 ++ requests_of l2.
Proof. apply flat_map_app. Qed.

Lemma requests_of_write (l : list event) (msg : str) :
  requests_of (l ++ [Write msg]) = requests_of l.
Proof. rewrite requests_of_app. cbn. apply app_nil_r. Qed.

Lemma requests_of_get (l : list event) (url : str) :
  requests_of (l ++ [Get url]) = requests_of l ++ [url].
Proof. now rewrite requests_of_app. Qed.

(** One pair: every list of the dictionary grows by what the pair adds
    under its key, which is nothing for all keys but one. *)
Lemma process_pair_appends (href : str) (p m : tag) (result : dict) (s : state) :
  exists (result' : dict) (s' : state),
    process_pair href p m result s = (Ok result', s') /\
    net s' = net s /\ disk s' = disk s /\
    requests_of (log s') = requests_of (log s) /\
    map fst result' = map fst result /\
    (forall (k : str) (l : list value),
        dict_get k result = Some l ->
        dict_get k result' = Some (l ++ pair_values k (p, m))).
Proof.
  unfold process_pair, try_append, pair_values. cbn [fst snd].
  rewrite str_split_first.
  set (key := derive_key (get_text_strip p)).
  destruct (dict_get key result) as [l0|] eqn:Hkey.
  - destruct (py_int (token_before space (get_text_strip m))) as [z|].
    + exists (dict_set key (l0 ++ [VInt z]) result), s.
      split; [reflexivity|]. repeat split; auto using dict_set_keys.
      intros k l Hk. destruct (str_eqb key k) eqn:E.
      * apply str_eqb_eq in E. subst k.
        rewrite Hkey in Hk. injection Hk as <-.
        eapply dict_get_set_same; eassumption.
      * rewrite app_nil_r, dict_get_set_other; [assumption|].
        intros ->. now rewrite str_eqb_refl in E.
    + eexists. eexists. unfold bind, tqdm_write, ret.
      split; [reflexivity|]. cbn [net log disk]. repeat split; auto.
      * apply requests_of_write.
      * intros k l Hk. destruct (str_eqb key k); now rewrite app_nil_r.
  - eexists. eexists. unfold bind, tqdm_write, ret.
    split; [reflexivity|]. cbn [net log disk]. repeat split; auto.
    + apply requests_of_write.
    + intros k l Hk. destruct (str_eqb key k) eqn:E.
      * apply str_eqb_eq in E. subst k. congruence.
      * now rewrite app_nil_r.
Qed.

Lemma pairs_loop_appends (href : str) (props measurements : list tag) (n : nat) :
  forall (a : nat) (result : dict) (s : state),
    length props = length measurements ->
    a + n = length measurements ->
    exists (result' : dict) (s' : state),
      pairs_loop href props measurements (seq a n) result s = (Ok result', s') /\
      net s' = net s /\ disk s' = disk s /\
      requests_of (log s') = requests_of (log s) /\
      map fst result' = map fst result /\
      (forall (k : str) (l : list value),
          dict_get k result = Some l ->
          dict_get k result' =
            Some (l ++ flat_map (pair_values k)
                                (combine (skipn a props) (skipn a measurements)))).
Proof.
  induction n as [|n IH]; intros a result s Hlen Han; cbn [seq pairs_loop].
  - exists result, s. split; [reflexivity|]. repeat split; auto.
    intros k l Hk. rewrite (skipn_all2 measurements) by lia.
    rewrite combine_nil. cbn. now rewrite app_nil_r.
  - destruct (nth_error props a) as [p|] eqn:Hp;
      [|apply nth_error_None in Hp; lia].
    destruct (nth_error measurements a) as [m|] eqn:Hm;
      [|apply nth_error_None in Hm; lia].
    unfold bind.
    destruct (@process_pair_appends href p m result s)
      as (r1 & s1 & -> & Hn1 & Hd1 & Hq1 & Hk1 & Hv1).
    destruct (IH (S a) r1 s1 Hlen ltac:(lia))
      as (r2 & s2 & -> & Hn2 & Hd2 & Hq2 & Hk2 & Hv2).
    exists r2, s2. split; [reflexivity|].
    repeat split; try congruence.
    intros k l Hk.
    rewrite (skipn_nth_error _ _ Hp), (skipn_nth_error _ _ Hm).
    cbn [combine flat_map]. rewrite app_assoc.
    apply Hv2, Hv1, Hk.
Qed.

Lemma extract_page_appends (h : str) (result : dict) (pg : page)
      (w' : World) (s : state) :
  has_key (lit "url") result ->
  requests_get (product_base ++ h) HEADERS (net s) = (Some pg, w') ->
  exists (result' : dict) (s' : state),
    extract_page (Some h) result s = (Ok result', s') /\
    net s' = w' /\ disk s' = disk s /\
    requests_of (log s') = requests_of (log s) ++ [product_base ++ h] /\
    map fst result' = map fst result /\
    (forall (k : str) (l : list value),
        dict_get k result = Some l ->
        dict_get k result' = Some (l ++ product_values k (h, pg))).
Proof.
  intros [urls Hurl] Hget.
  unfold extract_page, dict_append. rewrite Hurl.
  unfold bind at 1. unfold http_get. rewrite Hget.
  set (r1 := dict_set (lit "url") (urls ++ [VStr (product_base ++ h)]) result).
  set (s1 := {| net := w'; log := log s ++ [Get (product_base ++ h)];
                disk := disk s |}).
  assert (Hq1 : requests_of (log s1) = requests_of (log s) ++ [product_base ++ h]).
  { apply requests_of_get. }
  assert (Hv1 : forall (k : str) (l : list value),
             dict_get k result = Some l ->
             dict_get k r1 =
               Some (l ++ if str_eqb k (lit "url")
                          then [VStr (product_base ++ h)] else [])).
  { intros k l Hk. unfold r1. destruct (str_eqb k (lit "url")) eqn:E.
    - apply str_eqb_eq in E. subst k.
      rewrite Hurl in Hk. injection Hk as <-.
      eapply dict_get_set_same; eassumption.
    - rewrite app_nil_r, dict_get_set_other; [assumption|].
      intros ->. now rewrite str_eqb_refl in E. }
  unfold product_values, page_values. cbn [fst snd].
  destruct (Nat.eqb_spec (length (prop_tags pg)) (length (measurement_tags pg)))
    as [Hlen|Hlen].
  - destruct (@pairs_loop_appends h (prop_tags pg) (measurement_tags pg)
                (length (measurement_tags pg)) 0 r1 s1 Hlen eq_refl)
      as (r2 & s2 & Hrun & Hn2 & Hd2 & Hq2 & Hk2 & Hv2).
    exists r2, s2. split; [exact Hrun|].
    split; [exact Hn2|]. split; [exact Hd2|].
    split; [now rewrite Hq2|].
    split; [rewrite Hk2; apply dict_set_keys|].
    intros k l Hk. rewrite app_assoc. apply (Hv2 k), Hv1, Hk.
  - eexists. eexists. unfold bind, tqdm_write, ret.
    split; [reflexivity|]. cbn [net log disk].
    split; [reflexivity|]. split; [reflexivity|].
    split; [rewrite requests_of_write; exact Hq1|].
    split; [apply dict_set_keys|].
    intros k l Hk. rewrite app_nil_r. apply Hv1, Hk.
Qed.

Lemma extract_loop_appends (hs : list str) :
  forall (pgs : list page) (w' : World) (result : dict) (s : state),
    has_key (lit "url") result ->
    fetch_seq (map (app product_base) hs) (net s) = Some (pgs, w') ->
    exists (result' : dict) (s' : state),
      extract_loop (map Some hs) result s = (Ok result', s') /\
      net s' = w' /\ disk s' = disk s /\
      requests_of (log s') =
        requests_of (log s) ++ map (app product_base) hs /\
      map fst result' = map fst result /\
      (forall (k : str) (l : list value),
          dict_get k result = Some l ->
          dict_get k result' =
            Some (l ++ flat_map (product_values k) (combine hs pgs))).
Proof.
  induction hs as [|h hs IH]; intros pgs w' result s Hurl Hf;
    cbn [map extract_loop fetch_seq] in *.
  - injection Hf as <- <-. exists result, s. split; [reflexivity|].
    repeat split; auto; intros; cbn; now rewrite app_nil_r.
  - destruct (requests_get (product_base ++ h) HEADERS (net s))
      as [[pg|] w1] eqn:Hget; [|discriminate].
    destruct (fetch_seq (map (app product_base) hs) w1)
      as [[pgs' w2]|] eqn:Hrest; [|discriminate].
    injection Hf as <- <-.
    unfold bind.
    destruct (@extract_page_appends h result pg w1 s Hurl Hget)
      as (r1 & s1 & -> & Hn1 & Hd1 & Hq1 & Hk1 & Hv1).
    assert (Hurl1 : has_key (lit "url") r1).
    { destruct Hurl as [u Hu]. eexists. apply (Hv1 _ _ Hu). }
    rewrite <- Hn1 in Hrest.
    destruct (IH pgs' w2 r1 s1 Hurl1 Hrest)
      as (r2 & s2 & -> & Hn2 & Hd2 & Hq2 & Hk2 & Hv2).
    exists r2, s2. split; [reflexivity|].
    repeat split; try congruence.
    + rewrite Hq2, Hq1, <- app_assoc. reflexivity.
    + intros k l Hk. cbn [combine flat_map]. rewrite app_assoc.
      apply Hv2, Hv1, Hk.
Qed.

(** X1. When every product page is served, [extract_dimensions]
    returns; it has requested the product URLs, one per href and in
    their order; the keys of the dictionary are the five it started
    with, in the same order; and under each key the list holds, product
    after product, the URL (for 'url') and the integers of the pairs
    whose name gives that key and whose value reads as an integer. *)
Theorem extract_dimensions_columns :
  forall (hs : list str) (pgs : list page) (w' : World) (s : state),
    fetch_seq (map (app product_base) hs) (net s) = Some (pgs, w') ->
    exists (result : dict) (s' : state),
      extract_dimensions (map Some hs) s = (Ok result, s') /\
      net s' = w' /\ disk s' = disk s /\
      requests_of (log s') = requests_of (log s) ++ map (app product_base) hs /\
      map fst result = map fst empty_result /\
      (forall k : str,
          In k (map fst empty_result) ->
          dict_get k result = Some (flat_map (product_values k) (combine hs pgs))).
Proof.
  intros hs pgs w' s Hf. unfold extract_dimensions.
  assert (Hurl : has_key (lit "url") empty_result) by (now exists []).
  destruct (@extract_loop_appends hs pgs w' empty_result s Hurl Hf)
    as (r & s' & Hrun & Hn & Hd & Hq & Hk & Hv).
  exists r, s'. split; [exact Hrun|]. repeat split; auto.
  intros k Hin.
  assert (H0 : dict_get k empty_result = Some []).
  { cbn in Hin.
    repeat (destruct Hin as [<-|Hin]; [reflexivity|]). destruct Hin. }
  apply (Hv k [] H0).
Qed.


(** ** Requests and failures *)

Lemma get_hrefs_loop_requests (urls : list str) :
  forall (hrefs : list (option str)) (s s' : state)
         (o : outcome (list (option str))),
    get_hrefs_loop urls hrefs s = (o, s') ->
    exists n : nat,
      n <= length urls /\
      (urls <> [] -> 1 <= n) /\
      requests_of (log s') = requests_of (log s) ++ firstn n urls /\
      disk s' = disk s.
Proof.
  induction urls as [|u urls IH]; intros hrefs s s' o Hrun;
    cbn [get_hrefs_loop] in Hrun.
  - injection Hrun as _ <-. exists 0. cbn. rewrite app_nil_r.
    repeat split; auto. congruence.
  - unfold bind at 1 in Hrun. unfold http_get in Hrun.
    destruct (requests_get u HEADERS (net s)) as [[pg|] w].
    + destruct (0 <? length (map (tag_get (lit "href")) (product_block_images pg))).
      * destruct (IH _ _ _ _ Hrun) as (n & Hn & _ & Hq & Hd).
        exists (S n). cbn [length firstn]. split; [lia|]. split; [lia|].
        rewrite Hq, Hd. cbn [log disk].
        rewrite requests_of_get, <- app_assoc. split; reflexivity.
      * unfold bind, tqdm_write, ret in Hrun. injection Hrun as _ <-.
        exists 1. cbn [length firstn log disk].
        rewrite requests_of_write, requests_of_get.
        repeat split; auto; lia.
    + injection Hrun as _ <-. exists 1. cbn [length firstn log disk].
      rewrite requests_of_get. repeat split; auto; lia.
Qed.

(** X2. Whatever the network does, [get_hrefs] requests the candidates
    in their order, starting with the bare listing URL, up to some point
    that is at most the hundredth, and nothing else; it does not touch
    the disk. *)
Theorem get_hrefs_requests_a_prefix :
  forall s : state,
    exists n : nat,
      1 <= n <= 100 /\
      requests_of (log (snd (get_hrefs s)))
      = requests_of (log s) ++ firstn n listing_urls /\
      disk (snd (get_hrefs s)) = disk s.
Proof.
  intros s. unfold get_hrefs.
  destruct (get_hrefs_loop listing_urls [] s) as [o s'] eqn:Hrun.
  destruct (get_hrefs_loop_requests _ _ _ Hrun) as (n & Hn & H1 & Hq & Hd).
  cbn [snd].
  exists n. split; [|split; assumption].
  split; [apply H1; discriminate|].
  replace 100 with (length listing_urls); [exact Hn|].
  unfold listing_urls. cbn [length]. now rewrite length_map, length_seq.
Qed.

Lemma get_hrefs_loop_fails (before : list str) :
  forall (u : str) (after : list str) (pgs : list page) (w1 w2 : World)
         (hrefs : list (option str)) (s : state),
    fetch_seq before (net s) = Some (pgs, w1) ->
    forallb has_links pgs = true ->
    requests_get u HEADERS w1 = (None, w2) ->
    get_hrefs_loop (before ++ u :: after) hrefs s =
      (Raise RequestException,
       {| net := w2; log := log s ++ map Get before ++ [Get u];
          disk := disk s |}).
Proof.
  induction before as [|v before IH];
    intros u after pgs w1 w2 hrefs s Hf Hall Hu.
  - cbn in Hf. injection Hf as <- <-.
    cbn [app get_hrefs_loop map]. unfold bind, http_get. now rewrite Hu.
  - cbn [fetch_seq] in Hf.
    destruct (requests_get v HEADERS (net s)) as [[p|] w'] eqn:Hv;
      [|discriminate].
    destruct (fetch_seq before w') as [[pgs' w'']|] eqn:Hrest;
      [|discriminate].
    injection Hf as <- <-.
    cbn [forallb] in Hall. apply andb_true_iff in Hall as [Hp Hall].
    cbn [app get_hrefs_loop map]. unfold bind at 1. unfold http_get.
    rewrite Hv, length_map. unfold has_links in Hp. rewrite Hp.
    rewrite (IH u after pgs' w'' w2 _
                {| net := w'; log := log s ++ [Get v]; disk := disk s |}
                Hrest Hall Hu).
    cbn [net log disk]. now rewrite <- app_assoc.
Qed.

(** X3. A request of [get_hrefs] that raises ends the stage: the
    exception goes to the caller, and the links of the pages read so
    far are not returned. *)
Theorem get_hrefs_request_failure_is_fatal :
  forall (before after : list str) (u : str) (pgs : list page)
         (w1 w2 : World) (s : state),
    listing_urls = before ++ u :: after ->
    fetch_seq before (net s) = Some (pgs, w1) ->
    forallb has_links pgs = true ->
    requests_get u HEADERS w1 = (None, w2) ->
    get_hrefs s =
      (Raise RequestException,
       {| net := w2; log := log s ++ map Get before ++ [Get u];
          disk := disk s |}).
Proof.
  intros before after u pgs w1 w2 s Hurls Hf Hall Hu.
  unfold get_hrefs. rewrite Hurls.
  eapply get_hrefs_loop_fails; eassumption.
Qed.

Lemma extract_page_returns_inv (h : option str) (result r1 : dict)
      (s s1 : state) :
  extract_page h result s = (Ok r1, s1) ->
  exists (h0 : str) (pg : page),
    h = Some h0 /\
    has_key (lit "url") result /\
    requests_get (product_base ++ h0) HEADERS (net s) = (Some pg, net s1).
Proof.
  intros Hrun. destruct h as [h0|]; [|discriminate Hrun].
  destruct (dict_get (lit "url") result) as [urls|] eqn:Hurl.
  - destruct (requests_get (product_base ++ h0) HEADERS (net s))
      as [[pg|] w] eqn:Hget.
    + assert (Hk : has_key (lit "url") result) by (now exists urls).
      destruct (@extract_page_appends h0 result pg w s Hk Hget)
        as (r & s' & Hrun' & Hn & _).
      rewrite Hrun in Hrun'. injection Hrun' as <- <-.
      exists h0, pg. rewrite Hn. auto.
    + exfalso. revert Hrun.
      unfold extract_page, dict_append. rewrite Hurl.
      unfold bind, http_get. rewrite Hget. discriminate.
  - exfalso. revert Hrun.
    unfold extract_page, dict_append. rewrite Hurl. discriminate.
Qed.

(** X4. [extract_dimensions] returns only when every href is a string
    and every product page was served: it has no way around a missing
    href or a request that raises. *)
Theorem extract_dimensions_returns_only_if_served :
  forall (hrefs : list (option str)) (result : dict) (s s' : state),
    extract_dimensions hrefs s = (Ok result, s') ->
    exists (hs : list str) (pgs : list page),
      hrefs = map Some hs /\
      fetch_seq (map (app product_base) hs) (net s) = Some (pgs, net s').
Proof.
  intros hrefs result s s'. unfold extract_dimensions.
  generalize empty_result as r0. revert s.
  induction hrefs as [|h hrefs IH]; intros s r0 Hrun;
    cbn [extract_loop] in Hrun.
  - injection Hrun as _ <-. exists [], []. split; reflexivity.
  - unfold bind in Hrun.
    destruct (extract_page h r0 s) as [[r1|e] s1] eqn:Hpage;
      [|discriminate].
    destruct (extract_page_returns_inv _ _ _ Hpage)
      as (h0 & pg & -> & _ & Hget).
    destruct (IH s1 r1 Hrun) as (hs & pgs & -> & Hf).
    exists (h0 :: hs), (pg :: pgs). split; [reflexivity|].
    cbn [map fetch_seq]. now rewrite Hget, Hf.
Qed.


(** X5. A request of [extract_dimensions] that raises ends the stage
    with that exception, after the products before it were read; the
    later products are not requested. *)
Theorem extract_dimensions_request_failure_is_fatal :
  forall (pre post : list str) (h : str) (pgs : list page)
         (w1 w2 : World) (s : state),
    fetch_seq (map (app product_base) pre) (net s) = Some (pgs, w1) ->
    requests_get (product_base ++ h) HEADERS w1 = (None, w2) ->
    exists s' : state,
      extract_dimensions (map Some (pre ++ h :: post)) s
      = (Raise RequestException, s') /\
      net s' = w2 /\
      disk s' = disk s /\
      requests_of (log s')
      = requests_of (log s) ++ map (app product_base) (pre ++ [h]).
Proof.
  intros pre post h pgs w1 w2 s Hf Hget.
  unfold extract_dimensions.
  assert (Hurl : has_key (lit "url") empty_result) by (now exists []).
  destruct (@extract_loop_appends pre pgs w1 empty_result s Hurl Hf)
    as (r1 & s1 & Hrun & Hn & Hd & Hq & _ & Hv).
  rewrite map_app, extract_loop_app, Hrun.
  cbn [map extract_loop]. unfold bind at 1.
  destruct Hurl as [u0 Hu0]. pose proof (Hv _ _ Hu0) as Hu1.
  unfold extract_page, dict_append. rewrite Hu1.
  unfold bind, http_get. rewrite Hn, Hget.
  eexists. split; [reflexivity|]. cbn [net log disk].
  split; [reflexivity|]. split; [exact Hd|].
  now rewrite requests_of_get, Hq, map_app, <- app_assoc.
Qed.

Lemma token_before_prefix (c : N) (s : str) :
  ~ In c (token_before c s) /\
  exists rest : str,
    s = token_before c s ++ rest /\
    (rest = [] \/ exists rest' : str, rest = c :: rest').
Proof.
  induction s as [|x s [IHn (rest & IHe & IHr)]]; cbn [token_before].
  - split; [intros []|]. exists []. auto.
  - destruct (N.eqb_spec x c) as [->|Hne].
    + split; [intros []|]. exists (c :: s). split; [reflexivity|].
      right. now exists s.
    + split.
      * intros [H|H]; [now apply Hne | now apply IHn].
      * exists rest. split; [|exact IHr]. cbn. now rewrite <- IHe.
Qed.

(** X6. [measurement.split(" ")[0]] always has a value, so the index
    cannot raise: it is the part of the text before its first space (the
    whole text when it has none), and holds no space itself. *)
Theorem split_space_first_token :
  forall s : str,
    exists token rest : str,
      nth_error (str_split [space] s) 0 = Some token /\
      ~ In space token /\
      s = token ++ rest /\
      (rest = [] \/ exists rest' : str, rest = space :: rest').
Proof.
  intros s.
  destruct (token_before_prefix space s) as (Hn & rest & He & Hr).
  exists (token_before space s), rest.
  split; [apply str_split_first|]. auto.
Qed.

(** ** What the stages can raise *)

Lemma extract_page_frame (h : option str) (result : dict) (s : state) :
  has_key (lit "url") result ->
  disk (snd (extract_page h result s)) = disk s /\
  match fst (extract_page h result s) with
  | Ok result' => has_key (lit "url") result'
  | Raise e => e = TypeError \/ e = RequestException
  end.
Proof.
  intros Hk. destruct h as [h|]; [|cbn; auto].
  destruct (requests_get (product_base ++ h) HEADERS (net s))
    as [[pg|] w] eqn:Hget.
  - destruct (@extract_page_appends h result pg w s Hk Hget)
      as (r & s' & -> & _ & Hd & _ & _ & Hv).
    cbn [fst snd]. split; [exact Hd|].
    destruct Hk as [u Hu]. eexists. apply (Hv _ _ Hu).
  - destruct Hk as [u Hu].
    unfold extract_page, dict_append. rewrite Hu.
    unfold bind, http_get. rewrite Hget. cbn. auto.
Qed.

Lemma extract_loop_frame (hrefs : list (option str)) :
  forall (result : dict) (s : state),
    has_key (lit "url") result ->
    disk (snd (extract_loop hrefs result s)) = disk s /\
    match fst (extract_loop hrefs result s) with
    | Ok _ => True
    | Raise e => e = TypeError \/ e = RequestException
    end.
Proof.
  induction hrefs as [|h hrefs IH]; intros result s Hk; cbn [extract_loop].
  - cbn. auto.
  - unfold bind.
    destruct (extract_page_frame h s Hk) as [Hd Ho].
    destruct (extract_page h result s) as [[r1|e] s1]; cbn [fst snd] in *.
    + destruct (IH r1 s1 Ho) as [Hd' Ho']. split; [congruence|exact Ho'].
    + auto.
Qed.

(** X7. [extract_dimensions] raises nothing but [TypeError] (an href
    that is [None]) and the exception of a request: the subscripts
    [result["url"]], [props[i]] and [measurements[i]] never fail.  And
    it leaves the disk as it was, however it ends. *)
Theorem extract_dimensions_raises_only :
  forall (hrefs : list (option str)) (s : state),
    disk (snd (extract_dimensions hrefs s)) = disk s /\
    forall (e : exn) (s' : state),
      extract_dimensions hrefs s = (Raise e, s') ->
      e = TypeError \/ e = RequestException.
Proof.
  intros hrefs s. unfold extract_dimensions.
  assert (Hurl : has_key (lit "url") empty_result) by (now exists []).
  destruct (extract_loop_frame hrefs s Hurl) as [Hd Ho].
  split; [exact Hd|]. intros e s' Hrun. now rewrite Hrun in Ho.
Qed.


(** ** Writing twice, and the whole run *)

Lemma save_as_csv_run (data : dict) (df : DataFrame) (s : state) :
  make_DataFrame data = Ok df ->
  (forall c : str, disk s data_dir <> Some (File c)) ->
  disk s csv_path <> Some Dir ->
  save_as_csv data s =
    (Ok tt, {| net := net s; log := log s;
               disk := disk_after_save (to_csv_text df) (disk s) |}).
Proof.
  intros Hdf Hdir Hcsv.
  pose proof csv_path_not_data_dir as Hne.
  unfold save_as_csv, bind, os_path_exists, os_makedirs, lift, ret,
    write_file, disk_after_save.
  rewrite Hdf.
  destruct (disk s data_dir) as [[|c]|] eqn:Hd.
  - cbv beta iota zeta. cbn [negb]. cbv beta iota zeta.
    destruct (disk s csv_path) as [[|c]|]; [contradiction| |]; reflexivity.
  - exfalso. now apply (Hdir c).
  - cbv beta iota zeta. cbn [negb]. cbv beta iota zeta. rewrite Hd.
    cbn [net log disk]. rewrite (fs_set_other _ _ Hne).
    destruct (disk s csv_path) as [[|c]|]; [contradiction| |]; reflexivity.
Qed.

Lemma save_as_csv_inv (data : dict) (s s1 : state) :
  save_as_csv data s = (Ok tt, s1) ->
  exists df : DataFrame,
    make_DataFrame data = Ok df /\
    (forall c : str, disk s data_dir <> Some (File c)) /\
    disk s csv_path <> Some Dir.
Proof.
  pose proof csv_path_not_data_dir as Hne.
  unfold save_as_csv, bind, os_path_exists, os_makedirs, lift, ret,
    write_file.
  change (ends_with_slash data_dir) with true.
  destruct (make_DataFrame data) as [df|e].
  - intros Hrun. exists df. split; [reflexivity|].
    destruct (disk s data_dir) as [[|c]|] eqn:Hd;
      cbv beta iota zeta in Hrun; cbn [negb] in Hrun;
      cbv beta iota zeta in Hrun; rewrite ?Hd in Hrun;
      cbn [net log disk] in Hrun; rewrite ?(fs_set_other _ _ Hne) in Hrun.
    + split; [discriminate|]. intros Hc. now rewrite Hc in Hrun.
    + discriminate Hrun.
    + split; [discriminate|]. intros Hc. now rewrite Hc in Hrun.
  - destruct (disk s data_dir) as [[|c]|] eqn:Hd; cbv beta iota zeta;
      cbn [negb]; cbv beta iota zeta; rewrite ?Hd; discriminate.
Qed.

Lemma save_as_csv_raises (data : dict) (s s1 : state) (e : exn) :
  save_as_csv data s = (Raise e, s1) ->
  (e = FileExistsError \/ e = ValueError \/ e = IsADirectoryError) /\
  disk s1 csv_path = disk s csv_path.
Proof.
  pose proof csv_path_not_data_dir as Hne.
  unfold save_as_csv, bind, os_path_exists, os_makedirs, lift, ret,
    write_file.
  change (ends_with_slash data_dir) with true.
  assert (Hv : forall e0, make_DataFrame data = Raise e0 -> e0 = ValueError).
  { intros e0. unfold make_DataFrame. destruct data as [|[k l] data];
      [discriminate|]. destruct (forallb _ _); [discriminate|].
    now intros [= <-]. }
  destruct (make_DataFrame data) as [df|e0] eqn:Hdf;
    destruct (disk s data_dir) as [[|c]|] eqn:Hd;
    destruct (disk s csv_path) as [[|c']|] eqn:Hc;
    cbv beta iota zeta; cbn [negb]; cbv beta iota zeta; rewrite ?Hd;
    cbn [net log disk]; rewrite ?(fs_set_other _ _ Hne), ?Hc;
    intros [= <- <-]; cbn [disk]; rewrite ?(fs_set_other _ _ Hne), ?Hc;
    (split; [|reflexivity]); auto;
    right; left; now apply Hv.
Qed.

(** X8. Writing the same data a second time succeeds as the first time
    did and leaves every path of the disk as the first run left it. *)
Theorem save_as_csv_twice :
  forall (data : dict) (s s1 : state),
    save_as_csv data s = (Ok tt, s1) ->
    exists s2 : state,
      save_as_csv data s1 = (Ok tt, s2) /\
      net s2 = net s1 /\ log s2 = log s1 /\
      forall p : str, disk s2 p = disk s1 p.
Proof.
  intros data s s1 Hrun.
  pose proof csv_path_not_data_dir as Hne.
  assert (Hne' : data_dir <> csv_path) by (intros E; now apply Hne).
  destruct (save_as_csv_inv _ _ Hrun) as (df & Hdf & Hdir & Hcsv).
  rewrite (@save_as_csv_run data df s Hdf Hdir Hcsv) in Hrun.
  injection Hrun as <-.
  assert (Hd1 : disk_after_save (to_csv_text df) (disk s) data_dir = Some Dir).
  { unfold disk_after_save. rewrite (fs_set_other _ _ Hne').
    destruct (disk s data_dir) as [[|c]|] eqn:Hd.
    - exact Hd.
    - now elim (Hdir c).
    - apply fs_set_same. }
  assert (Hc1 : disk_after_save (to_csv_text df) (disk s) csv_path
                = Some (File (to_csv_text df))).
  { unfold disk_after_save. apply fs_set_same. }
  eexists. split.
  - apply (@save_as_csv_run data df _ Hdf); cbn [disk].
    + intros c. rewrite Hd1. discriminate.
    + rewrite Hc1. discriminate.
  - cbn [net log disk]. split; [reflexivity|]. split; [reflexivity|].
    intros p. unfold disk_after_save at 1. rewrite Hd1.
    unfold fs_set at 1. destruct (str_eqb p csv_path) eqn:E; [|reflexivity].
    apply str_eqb_eq in E. subst p. now rewrite Hc1.
Qed.


Lemma get_hrefs_loop_raises (urls : list str) :
  forall (hrefs : list (option str)) (s s' : state) (e : exn),
    get_hrefs_loop urls hrefs s = (Raise e, s') -> e = RequestException.
Proof.
  induction urls as [|u urls IH]; intros hrefs s s' e Hrun;
    cbn [get_hrefs_loop] in Hrun; [discriminate|].
  unfold bind at 1 in Hrun. unfold http_get in Hrun.
  destruct (requests_get u HEADERS (net s)) as [[pg|] w].
  - destruct (0 <? length (map (tag_get (lit "href")) (product_block_images pg))).
    + eapply IH, Hrun.
    + discriminate Hrun.
  - now injection Hrun as <- _.
Qed.

Lemma main_stages (s : state) :
  main s =
    match get_hrefs (main_start s) with
    | (Ok hrefs, s1) =>
        match extract_dimensions hrefs s1 with
        | (Ok dim, s2) =>
            match save_as_csv dim s2 with
            | (Ok _, s3) =>
                (Ok tt, {| net := net s3;
                           log := log s3 ++ closing_lines (length hrefs);
                           disk := disk s3 |})
            | (Raise e, s3) => (Raise e, s3)
            end
        | (Raise e, s2) => (Raise e, s2)
        end
    | (Raise e, s1) => (Raise e, s1)
    end.
Proof.
  unfold main. unfold bind at 1. unfold tqdm_write at 1.
  fold (main_start s). unfold bind at 1.
  destruct (get_hrefs (main_start s)) as [[hrefs|e] s1]; [|reflexivity].
  unfold bind at 1.
  destruct (extract_dimensions hrefs s1) as [[dim|e] s2]; [|reflexivity].
  unfold bind at 1.
  destruct (save_as_csv dim s2) as [[u|e] s3]; [|reflexivity].
  unfold bind, tqdm_write, closing_lines. cbn [net log disk].
  now rewrite <- app_assoc.
Qed.

Lemma get_hrefs_disk (s s1 : state) (o : outcome (list (option str))) :
  get_hrefs s = (o, s1) -> disk s1 = disk s.
Proof.
  intros Hrun. unfold get_hrefs in Hrun.
  now destruct (get_hrefs_loop_requests _ _ _ Hrun) as (_ & _ & _ & _ & Hd).
Qed.

Lemma extract_dimensions_frame (hrefs : list (option str)) (s : state) :
  disk (snd (extract_dimensions hrefs s)) = disk s /\
  forall (e : exn) (s' : state),
    extract_dimensions hrefs s = (Raise e, s') ->
    e = TypeError \/ e = RequestException.
Proof.
  unfold extract_dimensions.
  assert (Hurl : has_key (lit "url") empty_result) by (now exists []).
  destruct (extract_loop_frame hrefs s Hurl) as [Hd Ho].
  split; [exact Hd|]. intros e s' Hrun. now rewrite Hrun in Ho.
Qed.

(** X9. [main] returns only after the three stages have: the disk then
    differs from the one it started on by the directory and the CSV
    only, and the last two lines written are the number of links and
    "Script complete!". *)
Theorem main_returns_after_three_stages :
  forall s s' : state,
    main s = (Ok tt, s') ->
    exists (hrefs : list (option str)) (dim : dict) (df : DataFrame)
           (s1 s2 : state),
      get_hrefs (main_start s) = (Ok hrefs, s1) /\
      extract_dimensions hrefs s1 = (Ok dim, s2) /\
      make_DataFrame dim = Ok df /\
      net s' = net s2 /\
      log s' = log s2 ++ closing_lines (length hrefs) /\
      disk s' = disk_after_save (to_csv_text df) (disk s).
Proof.
  intros s s' Hmain. rewrite main_stages in Hmain.
  destruct (get_hrefs (main_start s)) as [[hrefs|e] s1] eqn:H1;
    [|discriminate].
  destruct (extract_dimensions hrefs s1) as [[dim|e] s2] eqn:H2;
    [|discriminate].
  destruct (save_as_csv dim s2) as [[u|e] s3] eqn:H3; [|discriminate].
  destruct u. destruct (save_as_csv_inv _ _ H3) as (df & Hdf & Hdir & Hcsv).
  rewrite (@save_as_csv_run dim df s2 Hdf Hdir Hcsv) in H3.
  injection H3 as <-. injection Hmain as <-.
  exists hrefs, dim, df, s1, s2. cbn [net log disk].
  repeat split; auto.
  pose proof (get_hrefs_disk _ H1) as Hd1.
  destruct (extract_dimensions_frame hrefs s1) as [Hd2 _].
  rewrite H2 in Hd2. cbn [snd] in Hd2.
  now rewrite Hd2, Hd1.
Qed.

(** X10. A run of [main] that raises has not written the CSV; the
    exception is one of five, never [KeyError] or [IndexError]; and when
    it is the exception of a request or the [TypeError] of an href that
    is [None], the disk is as it was. *)
Theorem main_raise_writes_no_csv :
  forall (s s' : state) (e : exn),
    main s = (Raise e, s') ->
    disk s' csv_path = disk s csv_path /\
    (e = RequestException \/ e = TypeError \/ e = FileExistsError \/
     e = ValueError \/ e = IsADirectoryError) /\
    (e = RequestException \/ e = TypeError -> disk s' = disk s).
Proof.
  intros s s' e Hmain. rewrite main_stages in Hmain.
  destruct (get_hrefs (main_start s)) as [[hrefs|e1] s1] eqn:H1.
  - pose proof (get_hrefs_disk _ H1) as Hd1. cbn [main_start disk] in Hd1.
    destruct (extract_dimensions_frame hrefs s1) as [Hd2 Hr2].
    destruct (extract_dimensions hrefs s1) as [[dim|e2] s2] eqn:H2;
      cbn [snd] in Hd2.
    + destruct (save_as_csv dim s2) as [[u|e3] s3] eqn:H3; [discriminate|].
      injection Hmain as <- <-.
      destruct (save_as_csv_raises _ _ H3) as [He Hc].
      split; [now rewrite Hc, Hd2, Hd1|].
      split; [tauto|].
      intros [->| ->]; destruct He as [He|[He|He]]; discriminate He.
    + injection Hmain as <- <-.
      split; [now rewrite Hd2, Hd1|].
      split; [destruct (Hr2 _ _ eq_refl); tauto|].
      intros _. now rewrite Hd2, Hd1.
  - injection Hmain as <- <-.
    pose proof (get_hrefs_disk _ H1) as Hd1. cbn [main_start disk] in Hd1.
    unfold get_hrefs in H1. apply get_hrefs_loop_raises in H1.
    split; [now rewrite Hd1|]. split; [tauto|]. intros _. exact Hd1.
Qed.


Lemma fetch_seq_length (urls : list str) :
  forall (w w' : World) (pgs : list page),
    fetch_seq urls w = Some (pgs, w') -> length pgs = length urls.
Proof.
  induction urls as [|u urls IH]; intros w w' pgs Hf; cbn [fetch_seq] in Hf.
  - now injection Hf as <- _.
  - destruct (requests_get u HEADERS w) as [[pg|] w1]; [|discriminate].
    destruct (fetch_seq urls w1) as [[pgs' w2]|] eqn:Hrest; [|discriminate].
    injection Hf as <- _. cbn [length]. f_equal. eapply IH, Hrest.
Qed.

Lemma flat_map_length_one (A B : Type) (f : A -> list B) (l : list A) :
  forallb (fun x => length (f x) =? 1) l = true ->
  length (flat_map f l) = length l.
Proof.
  induction l as [|x l IH]; cbn [forallb flat_map length]; [reflexivity|].
  intros H. apply andb_true_iff in H as [Hx Hl].
  apply Nat.eqb_eq in Hx. rewrite length_app, Hx, IH; auto.
Qed.

Lemma five_columns_shape (dim : dict) (col : str -> list value) :
  map fst dim = map fst empty_result ->
  (forall k : str, In k (map fst empty_result) -> dict_get k dim = Some (col k)) ->
  dim = five_columns (col (lit "url")) (col (lit "bredd")) (col (lit "brygga"))
                     (col (lit "glasbredd")) (col (lit "skalmlangd")).
Proof.
  intros Hkeys Hget.
  destruct dim as [|[k1 l1] [|[k2 l2] [|[k3 l3] [|[k4 l4] [|[k5 l5] [|? ?]]]]]];
    try discriminate Hkeys.
  cbn [map fst empty_result] in Hkeys.
  injection Hkeys as -> -> -> -> ->.
  pose proof (Hget (lit "url")) as H1.
  pose proof (Hget (lit "bredd")) as H2.
  pose proof (Hget (lit "brygga")) as H3.
  pose proof (Hget (lit "glasbredd")) as H4.
  pose proof (Hget (lit "skalmlangd")) as H5.
  cbn in H1, H2, H3, H4, H5.
  specialize (H1 ltac:(auto)). specialize (H2 ltac:(auto)).
  specialize (H3 ltac:(auto)). specialize (H4 ltac:(auto)).
  specialize (H5 ltac:(auto 6)).
  injection H1 as ->. injection H2 as ->. injection H3 as ->.
  injection H4 as ->. injection H5 as ->.
  reflexivity.
Qed.

(** X11. When the first listing page has no product link, [main]
    completes: it requests that page only, reports it as the last page
    and counts 0 links, and the CSV is the header line alone. *)
Theorem main_on_an_empty_listing :
  forall (pg : page) (w : World) (s : state),
    requests_get listing_base HEADERS (net s) = (Some pg, w) ->
    product_block_images pg = [] ->
    (forall c : str, disk s data_dir <> Some (File c)) ->
    disk s csv_path <> Some Dir ->
    main s =
      (Ok tt,
       {| net := w;
          log := log s ++
                 [Write (lit "Scraping SmartEyes");
                  Get listing_base;
                  Write (lit "Last page: " ++ listing_base)] ++
                 closing_lines 0;
          disk := disk_after_save header_line (disk s) |}).
Proof.
  intros pg w s Hget Hempty Hdir Hcsv.
  rewrite main_stages. unfold get_hrefs.
  change listing_urls with ([] ++ listing_base :: skipn 1 listing_urls).
  erewrite (@get_hrefs_loop_stops [] listing_base (skipn 1 listing_urls)
              [] pg (net s) w [] (main_start s));
    [|reflexivity|reflexivity|exact Hget|exact Hempty].
  cbn [flat_map app extract_dimensions extract_loop ret map].
  unfold ret.
  destruct (@five_columns_frame [] [] [] [] [] eq_refl eq_refl eq_refl eq_refl)
    as (df & Hdf & Htext).
  change (five_columns [] [] [] [] []) with empty_result in Hdf.
  cbn [length seq flat_map] in Htext. rewrite app_nil_r in Htext.
  erewrite (@save_as_csv_run empty_result df _ Hdf);
    [|exact Hdir|exact Hcsv].
  cbn [net log disk main_start length]. rewrite Htext.
  f_equal. f_equal. now rewrite <- !app_assoc.
Qed.

(** X12. When the listing ends on an empty page, every anchor before it
    has an href, every product page is served, and every product gives
    exactly one value for each column, [main] completes and the CSV is
    the header followed by one line per link, in the order of the
    links; the line written last but one counts the links. *)
Theorem main_writes_one_row_per_link :
  forall (before after : list str) (last_url : str) (lpgs : list page)
         (pg : page) (w1 w2 w3 : World) (hs : list str) (pgs : list page)
         (s : state),
    listing_urls = before ++ last_url :: after ->
    fetch_seq before (net s) = Some (lpgs, w1) ->
    forallb has_links lpgs = true ->
    requests_get last_url HEADERS w1 = (Some pg, w2) ->
    product_block_images pg = [] ->
    flat_map page_hrefs lpgs = map Some hs ->
    fetch_seq (map (app product_base) hs) w2 = Some (pgs, w3) ->
    complete_products (combine hs pgs) = true ->
    (forall c : str, disk s data_dir <> Some (File c)) ->
    disk s csv_path <> Some Dir ->
    exists s' : state,
      main s = (Ok tt, s') /\
      net s' = w3 /\
      disk s' =
        disk_after_save
          (header_line ++
           flat_map
             (row_line
                (flat_map (product_values (lit "url")) (combine hs pgs))
                (flat_map (product_values (lit "bredd")) (combine hs pgs))
                (flat_map (product_values (lit "brygga")) (combine hs pgs))
                (flat_map (product_values (lit "glasbredd")) (combine hs pgs))
                (flat_map (product_values (lit "skalmlangd")) (combine hs pgs)))
             (seq 0 (length hs)))
          (disk s) /\
      exists l : list event, log s' = l ++ closing_lines (length hs).
Proof.
  intros before after last_url lpgs pg w1 w2 w3 hs pgs s
         Hurls Hf Hall Hlast Hempty Hhrefs Hprod Hcomplete Hdir Hcsv.
  rewrite main_stages. unfold get_hrefs. rewrite Hurls.
  erewrite (@get_hrefs_loop_stops before last_url after lpgs pg w1 w2 []
              (main_start s));
    [|exact Hf|exact Hall|exact Hlast|exact Hempty].
  cbn [app]. rewrite Hhrefs.
  set (s1 := {| net := w2; log := _; disk := _ |}).
  assert (Hurl : has_key (lit "url") empty_result) by (now exists []).
  destruct (@extract_loop_appends hs pgs w3 empty_result s1 Hurl Hprod)
    as (dim & s2 & Hrun & Hn2 & Hd2 & _ & Hkeys & Hv).
  unfold extract_dimensions. rewrite Hrun.
  set (col := fun k => flat_map (product_values k) (combine hs pgs)).
  assert (Hshape : dim = five_columns (col (lit "url")) (col (lit "bredd"))
                           (col (lit "brygga")) (col (lit "glasbredd"))
                           (col (lit "skalmlangd"))).
  { apply five_columns_shape; [exact Hkeys|].
    intros k Hin.
    assert (H0 : dict_get k empty_result = Some []).
    { cbn in Hin.
      repeat (destruct Hin as [<-|Hin]; [reflexivity|]). destruct Hin. }
    apply (Hv k [] H0). }
  assert (Hlen : forall k : str, In k (map fst empty_result) ->
                                 length (col k) = length hs).
  { intros k Hin. unfold col. rewrite flat_map_length_one.
    - rewrite length_combine, (fetch_seq_length _ _ Hprod), length_map.
      apply Nat.min_id.
    - unfold complete_products in Hcomplete.
      rewrite forallb_forall in Hcomplete. now apply Hcomplete. }
  assert (Hl1 := Hlen (lit "url") ltac:(cbn; auto)).
  assert (Hl2 := Hlen (lit "bredd") ltac:(cbn; auto)).
  assert (Hl3 := Hlen (lit "brygga") ltac:(cbn; auto)).
  assert (Hl4 := Hlen (lit "glasbredd") ltac:(cbn; auto)).
  assert (Hl5 := Hlen (lit "skalmlangd") ltac:(cbn; auto 6)).
  destruct (@five_columns_frame (col (lit "url")) (col (lit "bredd"))
              (col (lit "brygga")) (col (lit "glasbredd"))
              (col (lit "skalmlangd")))
    as (df & Hdf & Htext); try congruence.
  rewrite <- Hshape in Hdf. rewrite Hl1 in Htext.
  erewrite (@save_as_csv_run dim df s2 Hdf);
    [|rewrite Hd2; exact Hdir|rewrite Hd2; exact Hcsv].
  eexists. split; [reflexivity|]. cbn [net log disk].
  split; [exact Hn2|]. split.
  - rewrite Htext, Hd2. reflexivity.
  - exists (log s2). now rewrite length_map.
Qed.


(** ** A run of extract_dimensions, page by page *)

Lemma process_pair_log (href : str) (p m : tag) (result : dict) (s : state) :
  exists l : list event, log (snd (process_pair href p m result s)) = log s ++ l.
Proof.
  unfold process_pair. destruct (try_append _ _ result) as [r|e].
  - exists []. cbn. now rewrite app_nil_r.
  - eexists. unfold bind, tqdm_write, ret. cbn [snd log]. reflexivity.
Qed.

Lemma pairs_loop_log (href : str) (props measurements : list tag)
      (idx : list nat) :
  forall (result : dict) (s : state),
    exists l : list event,
      log (snd (pairs_loop href props measurements idx result s)) = log s ++ l.
Proof.
  induction idx as [|i idx IH]; intros result s; cbn [pairs_loop].
  - exists []. cbn. now rewrite app_nil_r.
  - destruct (nth_error props i) as [p|];
      [|exists []; cbn; now rewrite app_nil_r].
    destruct (nth_error measurements i) as [m|];
      [|exists []; cbn; now rewrite app_nil_r].
    unfold bind.
    destruct (process_pair_log href p m result s) as [l1 H1].
    destruct (process_pair href p m result s) as [[r1|e] s1]; cbn [snd] in *.
    + destruct (IH r1 s1) as [l2 H2]. exists (l1 ++ l2).
      now rewrite H2, H1, app_assoc.
    + now exists l1.
Qed.

Lemma extract_page_log (h : option str) (result : dict) (s : state) :
  exists l : list event, log (snd (extract_page h result s)) = log s ++ l.
Proof.
  destruct h as [h|]; [|exists []; cbn; now rewrite app_nil_r].
  unfold extract_page.
  destruct (dict_append (lit "url") _ result) as [r1|e];
    [|exists []; cbn; now rewrite app_nil_r].
  unfold bind at 1. unfold http_get.
  destruct (requests_get (product_base ++ h) HEADERS (net s)) as [[pg|] w];
    [|eexists; cbn [snd log]; reflexivity].
  destruct (length (prop_tags pg) =? length (measurement_tags pg)).
  - destruct (pairs_loop_log h (prop_tags pg) (measurement_tags pg)
                (seq 0 (length (measurement_tags pg))) r1
                {| net := w; log := log s ++ [Get (product_base ++ h)];
                   disk := disk s |}) as [l Hl].
    eexists. rewrite Hl. cbn [log]. now rewrite <- app_assoc.
  - eexists. unfold bind, tqdm_write, ret. cbn [snd log].
    now rewrite <- app_assoc.
Qed.

Lemma extract_loop_log (hrefs : list (option str)) :
  forall (result : dict) (s : state),
    exists l : list event,
      log (snd (extract_loop hrefs result s)) = log s ++ l.
Proof.
  induction hrefs as [|h hrefs IH]; intros result s; cbn [extract_loop].
  - exists []. cbn. now rewrite app_nil_r.
  - unfold bind.
    destruct (extract_page_log h result s) as [l1 H1].
    destruct (extract_page h result s) as [[r1|e] s1]; cbn [snd] in *.
    + destruct (IH r1 s1) as [l2 H2]. exists (l1 ++ l2).
      now rewrite H2, H1, app_assoc.
    + now exists l1.
Qed.

(** C2. In a run of [extract_dimensions], a product page whose lists of
    names and of values differ in length is skipped for data: the run
    goes on, the URL of the product is in the list of URLs at the
    place of the product, no other list gets anything from that page,
    and right after the request of the page one line is written that
    names its href. *)
Theorem extract_dimensions_skips_mismatched_page :
  forall (pre post : list str) (h : str) (pgs pgs' : list page) (pg : page)
         (w1 w2 w3 : World) (s : state),
    fetch_seq (map (app product_base) pre) (net s) = Some (pgs, w1) ->
    requests_get (product_base ++ h) HEADERS w1 = (Some pg, w2) ->
    length (prop_tags pg) <> length (measurement_tags pg) ->
    fetch_seq (map (app product_base) post) w2 = Some (pgs', w3) ->
    exists (result : dict) (s' : state) (l1 l2 : list event),
      extract_dimensions (map Some (pre ++ h :: post)) s = (Ok result, s') /\
      log s' = l1 ++ [Get (product_base ++ h); mismatch_line h] ++ l2 /\
      requests_of l1 = requests_of (log s) ++ map (app product_base) pre /\
      requests_of l2 = map (app product_base) post /\
      (forall k : str,
          In k (map fst empty_result) ->
          dict_get k result =
            Some (flat_map (product_values k) (combine pre pgs)
                  ++ (if str_eqb k (lit "url")
                      then [VStr (product_base ++ h)] else [])
                  ++ flat_map (product_values k) (combine post pgs'))).
Proof.
  intros pre post h pgs pgs' pg w1 w2 w3 s Hpre Hget Hlen Hpost.
  unfold extract_dimensions.
  assert (Hurl : has_key (lit "url") empty_result) by (now exists []).
  destruct (@extract_loop_appends pre pgs w1 empty_result s Hurl Hpre)
    as (r1 & s1 & Hrun1 & Hn1 & _ & Hq1 & _ & Hv1).
  destruct Hurl as [u0 Hu0]. pose proof (Hv1 _ _ Hu0) as Hu1.
  rewrite <- Hn1 in Hget.
  destruct (@extract_page_length_mismatch h r1 _ pg w2 s1 Hu1 Hget Hlen)
    as (r2 & Hrun2 & Hu2 & Hother & _).
  set (s2 := {| net := w2;
                log := log s1 ++ [Get (product_base ++ h);
                                  Write (h ++ lit ": not equal number of properties and measurements")];
                disk := disk s1 |}) in *.
  assert (Hurl2 : has_key (lit "url") r2) by (eexists; exact Hu2).
  destruct (@extract_loop_appends post pgs' w3 r2 s2 Hurl2 Hpost)
    as (r3 & s3 & Hrun3 & _ & _ & Hq3 & _ & Hv3).
  destruct (extract_loop_log (map Some post) r2 s2) as [l2 Hl2].
  rewrite Hrun3 in Hl2. cbn [snd] in Hl2.
  exists r3, s3, (log s1), l2.
  split.
  - rewrite map_app, extract_loop_app, Hrun1.
    cbn [map extract_loop]. unfold bind. rewrite Hrun2. exact Hrun3.
  - split; [rewrite Hl2; unfold s2, mismatch_line; cbn [log];
            now rewrite <- app_assoc|].
    split; [exact Hq1|].
    split.
    + rewrite Hl2 in Hq3. rewrite requests_of_app in Hq3.
      now apply app_inv_head in Hq3.
    + intros k Hin.
      assert (H0 : dict_get k empty_result = Some []).
      { cbn in Hin.
        repeat (destruct Hin as [<-|Hin]; [reflexivity|]). destruct Hin. }
      pose proof (Hv1 _ _ H0) as Hk1. cbn [app] in Hk1.
      destruct (str_eqb k (lit "url")) eqn:E.
      * apply str_eqb_eq in E. subst k.
        rewrite Hu0 in H0. injection H0 as ->. cbn [app] in Hu2.
        rewrite (Hv3 _ _ Hu2), <- app_assoc. reflexivity.
      * assert (Hne : k <> lit "url")
          by (intros ->; now rewrite str_eqb_refl in E).
        rewrite <- (Hother k Hne) in Hk1.
        rewrite (Hv3 _ _ Hk1). reflexivity.
Qed.

Lemma page_values_stored (k : str) (pg : page) :
  page_values k pg = stored_under k pg.
Proof.
  unfold page_values, stored_under, aligned_pairs.
  destruct (length (prop_tags pg) =? length (measurement_tags pg));
    [|reflexivity].
  apply flat_map_ext. intros [p m].
  unfold pair_values, spec_key, spec_measurement. cbn [fst snd].
  now rewrite derive_key_fold.
Qed.

Lemma flat_map_combine_snd (A B C : Type) (f : B -> list C) (l : list A) :
  forall l' : list B,
    length l' = length l ->
    flat_map (fun ab => f (snd ab)) (combine l l') = flat_map f l'.
Proof.
  induction l as [|a l IH]; intros [|b l'] Hlen; try discriminate Hlen;
    [reflexivity|].
  cbn [combine flat_map snd]. f_equal. apply IH. now injection Hlen.
Qed.

(** C6. In a run of [extract_dimensions], what is stored comes from
    the pairs aligned by position on the pages whose two lists have one
    length: the key of a pair is the text of its name, trimmed,
    lower-cased and with "ä" folded to "a"; the measurement is the
    integer conversion of the text of its value up to the first space;
    and the list under each of the four fields holds exactly the
    measurements of the pairs with that key, in the order of the
    products and of the pairs. *)
Theorem extract_dimensions_keys_and_measurements :
  forall (hs : list str) (pgs : list page) (w' : World) (s : state),
    fetch_seq (map (app product_base) hs) (net s) = Some (pgs, w') ->
    (exists (result : dict) (s' : state),
        extract_dimensions (map Some hs) s = (Ok result, s') /\
        (forall k : str,
            In k [lit "bredd"; lit "brygga"; lit "glasbredd"; lit "skalmlangd"] ->
            dict_get k result = Some (flat_map (stored_under k) pgs)) /\
        dict_get (lit "url") result =
          Some (flat_map (fun hp => VStr (product_base ++ fst hp)
                                    :: stored_under (lit "url") (snd hp))
                         (combine hs pgs))) /\
    (forall (a : list (str * str)) (name : str),
        spec_key {| attrs := a; strings := [name] |}
        = fold_char a_umlaut latin_a (str_lower (str_strip name))) /\
    (forall (a : list (str * str)) (text : str),
        spec_measurement {| attrs := a; strings := [text] |}
        = py_int (token_before space (str_strip text))).
Proof.
  intros hs pgs w' s Hf.
  split; [|split; intros a t; unfold spec_key, spec_measurement;
           now rewrite get_text_strip_single].
  unfold extract_dimensions.
  assert (Hurl : has_key (lit "url") empty_result) by (now exists []).
  destruct (@extract_loop_appends hs pgs w' empty_result s Hurl Hf)
    as (r & s' & Hrun & _ & _ & _ & _ & Hv).
  exists r, s'. split; [exact Hrun|].
  assert (Hlen : length pgs = length hs).
  { rewrite (fetch_seq_length _ _ Hf). apply length_map. }
  split.
  - intros k Hin.
    assert (H0 : dict_get k empty_result = Some []
                 /\ str_eqb k (lit "url") = false).
    { cbn in Hin.
      repeat (destruct Hin as [<-|Hin]; [split; reflexivity|]).
      destruct Hin. }
    destruct H0 as [H0 Hk].
    rewrite (Hv _ _ H0). cbn [app]. f_equal.
    rewrite <- (flat_map_combine_snd (stored_under k) hs pgs Hlen).
    apply flat_map_ext. intros [h pg].
    unfold product_values. rewrite Hk. cbn [app fst snd].
    apply page_values_stored.
  - rewrite (Hv (lit "url") [] eq_refl). cbn [app]. f_equal.
    apply flat_map_ext. intros [h pg].
    unfold product_values. cbn [app fst snd].
    now rewrite page_values_stored.
Qed.


End Properties.

(** * Runs on concrete networks *)

(** The network [Demo.shop]: the first listing page has links, page 2
    has none. *)
Lemma get_hrefs_stops_at_first_empty_page_witness :
  get_hrefs (R := Demo.site_runtime Demo.shop)
            (Demo.start (Demo.site_runtime Demo.shop) tt)
  = (Ok [Some (lit "/glasogon/1/1"); Some (lit "/glasogon/2/2")],
     Demo.st (Demo.site_runtime Demo.shop) tt
             [Get listing_base; Get Demo.page2;
              Write (lit "Last page: " ++ Demo.page2)]
             Demo.empty_disk).
Proof.
  apply (@get_hrefs_stops_at_first_empty_page
           (Demo.site_runtime Demo.shop)
           [listing_base] (skipn 2 listing_urls) Demo.page2
           [Demo.listing [Demo.link "/glasogon/1/1"; Demo.link "/glasogon/2/2"]]
           Demo.no_page tt tt
           (Demo.start (Demo.site_runtime Demo.shop) tt));
    reflexivity.
Defined.

(** A network on which every candidate page has one link. *)
Lemma get_hrefs_candidates_and_cap_witness :
  nth_error listing_urls 99 = Some (listing_base ++ lit "?page=100") /\
  get_hrefs (R := Demo.links_everywhere) (Demo.start Demo.links_everywhere tt)
  = (Ok (repeat (Some (lit "/p")) 100),
     Demo.st Demo.links_everywhere tt (map Get listing_urls) Demo.empty_disk).
Proof.
  destruct (@get_hrefs_candidates_and_cap Demo.links_everywhere)
    as (_ & _ & Hn & Hrun).
  split.
  - apply (Hn 100). lia.
  - apply (Hrun (repeat (Demo.listing [Demo.link "/p"]) 100)
                (tt : @World Demo.links_everywhere)
                (Demo.start Demo.links_everywhere tt)); reflexivity.
Defined.

(** The network [Demo.shop_mismatch]: two names, one value. *)
Lemma extract_page_length_mismatch_example :
  exists result' : dict,
    extract_page (R := Demo.site_runtime Demo.shop_mismatch)
                 (Some Demo.product1) empty_result
                 (Demo.start (Demo.site_runtime Demo.shop_mismatch) tt)
    = (Ok result',
       Demo.st (Demo.site_runtime Demo.shop_mismatch) tt
               [Get Demo.product1_url;
                Write (Demo.product1 ++
                       lit ": not equal number of properties and measurements")]
               Demo.empty_disk) /\
    dict_get (lit "url") result' = Some [VStr Demo.product1_url] /\
    (forall k : str, k <> lit "url" -> dict_get k result' = dict_get k empty_result) /\
    map fst result' = map fst empty_result.
Proof.
  apply (@extract_page_length_mismatch
           (Demo.site_runtime Demo.shop_mismatch)
           Demo.product1 empty_result []
           (Demo.product [Demo.text "Bredd"; Demo.text "Brygga"]
                         [Demo.text "140 mm"])
           tt (Demo.start (Demo.site_runtime Demo.shop_mismatch) tt)).
  - reflexivity.
  - reflexivity.
  - simpl. lia.
Defined.

(** The pair "Skalmlängd" / "150 mm" on the empty result. *)
Lemma process_pair_stores_example :
  exists result' : dict,
    process_pair (R := Demo.site_runtime Demo.shop) Demo.product1
                 Demo.skalmlangd_label (Demo.text " 150 mm ") empty_result
                 (Demo.start (Demo.site_runtime Demo.shop) tt)
    = (Ok result', Demo.start (Demo.site_runtime Demo.shop) tt) /\
    dict_get (lit "skalmlangd") result' = Some [VInt 150].
Proof.
  destruct (@process_pair_stores
              (Demo.site_runtime Demo.shop) Demo.product1
              Demo.skalmlangd_label (Demo.text " 150 mm ") empty_result
              [] 150%Z (Demo.start (Demo.site_runtime Demo.shop) tt))
    as [(result' & Hrun & Hget & _) _].
  - reflexivity.
  - reflexivity.
  - exists result'. split; [exact Hrun | exact Hget].
Defined.

(** One row, written over an older file. *)
Lemma save_as_csv_writes_table_witness :
  exists s' : state,
    save_as_csv (R := Demo.site_runtime Demo.shop)
                (five_columns [VStr Demo.product1_url] [VInt 140] [VInt 18]
                              [VInt 54] [VInt 150])
                (Demo.st (Demo.site_runtime Demo.shop) tt []
                         Demo.disk_with_old_csv)
    = (Ok tt, s') /\
    disk s' csv_path =
      Some (File (lit "url,bredd,brygga,glasbredd,skalmlangd" ++ [newline] ++
                  Demo.product1_url ++ lit ",140,18,54,150" ++ [newline])).
Proof.
  destruct (@save_as_csv_writes_table
              (Demo.site_runtime Demo.shop)
              [VStr Demo.product1_url] [VInt 140] [VInt 18] [VInt 54] [VInt 150]
              (Demo.st (Demo.site_runtime Demo.shop) tt []
                       Demo.disk_with_old_csv))
    as (s' & Hrun & _ & _ & _ & Hcsv & _).
  - reflexivity.
  - reflexivity.
  - reflexivity.
  - reflexivity.
  - intros c. vm_compute. discriminate.
  - vm_compute. discriminate.
  - exists s'. split; [exact Hrun | exact Hcsv].
Defined.

(** A URL without any measurement: the DataFrame is refused. *)
Lemma save_as_csv_needs_equal_lengths_witness :
  exists s' : state,
    save_as_csv (R := Demo.site_runtime Demo.shop)
                (five_columns [VStr Demo.product1_url] [] [] [] [])
                (Demo.start (Demo.site_runtime Demo.shop) tt)
    = (Raise ValueError, s') /\
    disk s' csv_path = None /\
    disk s' data_dir = Some Dir.
Proof.
  destruct (@save_as_csv_needs_equal_lengths
              (Demo.site_runtime Demo.shop)
              (five_columns [VStr Demo.product1_url] [] [] [] [])
              (Demo.start (Demo.site_runtime Demo.shop) tt))
    as [_ Hshort].
  destruct (Hshort [VStr Demo.product1_url] (lit "bredd") [])
    as (s' & Hrun & Hcsv & Hdir & _).
  - reflexivity.
  - reflexivity.
  - simpl. lia.
  - intros c. vm_compute. discriminate.
  - exists s'. split; [exact Hrun|]. split; [exact Hcsv | exact Hdir].
Defined.

(** The network [Demo.shop_no_href]: the only anchor has no href. *)
Lemma missing_href_is_None_and_fatal_witness :
  exists (hrefs : list (option str)) (s1 : state),
    get_hrefs (R := Demo.site_runtime Demo.shop_no_href)
              (Demo.start (Demo.site_runtime Demo.shop_no_href) tt)
    = (Ok hrefs, s1) /\
    In None hrefs /\
    length hrefs = 1 /\
    exists (e : exn) (s2 : state),
      extract_dimensions hrefs s1 = (Raise e, s2).
Proof.
  destruct (@missing_href_is_None_and_fatal
              (Demo.site_runtime Demo.shop_no_href)
              [listing_base] (skipn 2 listing_urls) Demo.page2
              [Demo.listing [Demo.link_without_href]]
              Demo.no_page tt tt
              (Demo.start (Demo.site_runtime Demo.shop_no_href) tt)
              Demo.link_without_href)
    as (_ & hrefs & s1 & Hrun & Hin & Hlen & Hraise & _).
  - reflexivity.
  - reflexivity.
  - reflexivity.
  - reflexivity.
  - reflexivity.
  - simpl. left. reflexivity.
  - reflexivity.
  - exists hrefs, s1. repeat split; assumption.
Defined.

(** * Runs on which the script misses what it is meant to do *)

(** C1 (failing run). On [Demo.shop_mismatch] one link is collected and
    its page is skipped for data; the lists then differ in length,
    [save_as_csv] raises, and the run ends without a table: no file is
    at the path of the CSV, and the closing lines are not written. *)
Theorem main_aborts_after_a_skipped_page :
  exists (s1 s' : state),
    get_hrefs (R := Demo.site_runtime Demo.shop_mismatch)
              (Demo.start (Demo.site_runtime Demo.shop_mismatch) tt)
    = (Ok [Some Demo.product1], s1) /\
    fst (extract_dimensions [Some Demo.product1] s1)
    = Ok (five_columns [VStr Demo.product1_url] [] [] [] []) /\
    main (Demo.start (Demo.site_runtime Demo.shop_mismatch) tt)
    = (Raise ValueError, s') /\
    disk s' csv_path = None /\
    ~ In (Write (lit "Script complete!")) (log s').
Proof.
  eexists. eexists. split; [vm_compute; reflexivity|].
  split; [vm_compute; reflexivity|].
  split; [vm_compute; reflexivity|].
  split; [vm_compute; reflexivity|].
  vm_compute. intros H.
  repeat (destruct H as [H|H]; [discriminate H|]). exact H.
Qed.

(** C3 (failing run). On [Demo.shop_url_label] the name "URL" gives the
    key "url", which is none of the four fields; the pair is not
    skipped and no line is written: 5 is appended to the list of URLs. *)
Theorem url_label_pair_is_not_skipped :
  extract_dimensions (R := Demo.site_runtime Demo.shop_url_label)
                     [Some Demo.product1]
                     (Demo.start (Demo.site_runtime Demo.shop_url_label) tt)
  = (Ok (five_columns [VStr Demo.product1_url; VInt 5] [] [] [] []),
     Demo.st (Demo.site_runtime Demo.shop_url_label) tt
             [Get Demo.product1_url] Demo.empty_disk).
Proof. vm_compute. reflexivity. Qed.

(** C8 (failing run). On the same page the list under 'url' has two
    entries for one href. *)
Theorem url_list_longer_than_hrefs :
  exists (result : dict) (s' : state),
    extract_dimensions (R := Demo.site_runtime Demo.shop_url_label)
                       [Some Demo.product1]
                       (Demo.start (Demo.site_runtime Demo.shop_url_label) tt)
    = (Ok result, s') /\
    option_map (@length value) (dict_get (lit "url") result) = Some 2 /\
    length [Some Demo.product1] = 1.
Proof.
  eexists. eexists. split; [vm_compute; reflexivity|].
  split; vm_compute; reflexivity.
Qed.

(** * Further runs *)

(** [Demo.shop_bad_value]: the first product has "abc mm" for its
    width, so the width of the second product is first in its list. *)
Lemma extract_dimensions_columns_witness :
  exists (result : dict) (s' : state),
    extract_dimensions (R := Demo.site_runtime Demo.shop_bad_value)
                       [Some Demo.product1; Some Demo.product2]
                       (Demo.start (Demo.site_runtime Demo.shop_bad_value) tt)
    = (Ok result, s') /\
    dict_get (lit "url") result
    = Some [VStr Demo.product1_url; VStr Demo.product2_url] /\
    dict_get (lit "bredd") result = Some [VInt 138] /\
    dict_get (lit "brygga") result = Some [VInt 18; VInt 17].
Proof.
  destruct (@extract_dimensions_columns
              (Demo.site_runtime Demo.shop_bad_value)
              [Demo.product1; Demo.product2]
              [Demo.product [Demo.text "Bredd"; Demo.text "Brygga"]
                            [Demo.text "abc mm"; Demo.text "18 mm"];
               Demo.product [Demo.text "Bredd"; Demo.text "Brygga"]
                            [Demo.text "138 mm"; Demo.text "17 mm"]]
              tt (Demo.start (Demo.site_runtime Demo.shop_bad_value) tt))
    as (result & s' & Hrun & _ & _ & _ & _ & Hcol).
  - reflexivity.
  - exists result, s'. split; [exact Hrun|].
    split; [|split]; apply Hcol; vm_compute; tauto.
Defined.

(** [Demo.shop_partly_down]: the second listing page cannot be reached. *)
Lemma get_hrefs_request_failure_is_fatal_witness :
  get_hrefs (R := Demo.strict_runtime Demo.shop_partly_down)
            (Demo.start (Demo.strict_runtime Demo.shop_partly_down) tt)
  = (Raise RequestException,
     Demo.st (Demo.strict_runtime Demo.shop_partly_down) tt
             [Get listing_base; Get Demo.page2] Demo.empty_disk).
Proof.
  apply (@get_hrefs_request_failure_is_fatal
           (Demo.strict_runtime Demo.shop_partly_down)
           [listing_base] (skipn 2 listing_urls) Demo.page2
           [Demo.listing [Demo.link "/glasogon/1/1"; Demo.link "/glasogon/2/2"]]
           tt tt (Demo.start (Demo.strict_runtime Demo.shop_partly_down) tt));
    reflexivity.
Defined.

(** [Demo.shop]: both products are served. *)
Lemma extract_dimensions_returns_only_if_served_witness :
  exists (s' : state) (hs : list str) (pgs : list page),
    [Some Demo.product1; Some Demo.product2] = map Some hs /\
    fetch_seq (R := Demo.site_runtime Demo.shop)
              (map (app product_base) hs) tt = Some (pgs, net s').
Proof.
  assert (H : exists (result : dict) (s' : state),
             extract_dimensions
               (R := Demo.site_runtime Demo.shop)
               [Some Demo.product1; Some Demo.product2]
               (Demo.start (Demo.site_runtime Demo.shop) tt)
             = (Ok result, s'))
    by (eexists; eexists; vm_compute; reflexivity).
  destruct H as (result & s' & Hrun).
  destruct (@extract_dimensions_returns_only_if_served
              (Demo.site_runtime Demo.shop)
              [Some Demo.product1; Some Demo.product2] result
              (Demo.start (Demo.site_runtime Demo.shop) tt) s' Hrun)
    as (hs & pgs & Hhs & Hf).
  exists s', hs, pgs. split; [exact Hhs | exact Hf].
Defined.

(** [Demo.shop_partly_down]: the second product cannot be reached. *)
Lemma extract_dimensions_request_failure_is_fatal_witness :
  exists s' : state,
    extract_dimensions (R := Demo.strict_runtime Demo.shop_partly_down)
                       [Some Demo.product1; Some Demo.product2]
                       (Demo.start (Demo.strict_runtime Demo.shop_partly_down) tt)
    = (Raise RequestException, s') /\
    requests_of (log s') = [Demo.product1_url; Demo.product2_url].
Proof.
  destruct (@extract_dimensions_request_failure_is_fatal
              (Demo.strict_runtime Demo.shop_partly_down)
              [Demo.product1] [] Demo.product2
              [Demo.full_page "140 mm" "18 mm" "54 mm" "150 mm"]
              tt tt (Demo.start (Demo.strict_runtime Demo.shop_partly_down) tt))
    as (s' & Hrun & _ & _ & Hq).
  - reflexivity.
  - reflexivity.
  - exists s'. split; [exact Hrun | exact Hq].
Defined.

(** An href that is [None], alone. *)
Lemma extract_dimensions_raises_only_witness :
  extract_dimensions (R := Demo.site_runtime Demo.shop) [None]
                     (Demo.start (Demo.site_runtime Demo.shop) tt)
  = (Raise TypeError, Demo.start (Demo.site_runtime Demo.shop) tt) /\
  (TypeError = TypeError \/ TypeError = RequestException).
Proof.
  destruct (@extract_dimensions_raises_only
              (Demo.site_runtime Demo.shop) [None]
              (Demo.start (Demo.site_runtime Demo.shop) tt))
    as [_ Hraise].
  split; [reflexivity|].
  apply (Hraise TypeError (Demo.start (Demo.site_runtime Demo.shop) tt)).
  reflexivity.
Defined.

(** One row, written twice on an empty disk. *)
Lemma save_as_csv_twice_witness :
  exists s1 s2 : state,
    save_as_csv (R := Demo.site_runtime Demo.shop)
                (five_columns [VStr Demo.product1_url] [VInt 140] [VInt 18]
                              [VInt 54] [VInt 150])
                (Demo.start (Demo.site_runtime Demo.shop) tt)
    = (Ok tt, s1) /\
    save_as_csv (five_columns [VStr Demo.product1_url] [VInt 140] [VInt 18]
                              [VInt 54] [VInt 150]) s1
    = (Ok tt, s2) /\
    disk s2 csv_path = disk s1 csv_path.
Proof.
  assert (H : exists s1 : state,
             save_as_csv
               (R := Demo.site_runtime Demo.shop)
               (five_columns [VStr Demo.product1_url] [VInt 140] [VInt 18]
                             [VInt 54] [VInt 150])
               (Demo.start (Demo.site_runtime Demo.shop) tt)
             = (Ok tt, s1))
    by (eexists; vm_compute; reflexivity).
  destruct H as (s1 & Hrun).
  destruct (@save_as_csv_twice (Demo.site_runtime Demo.shop) _ _ s1 Hrun)
    as (s2 & Hrun2 & _ & _ & Hdisk).
  exists s1, s2. split; [exact Hrun|]. split; [exact Hrun2 | apply Hdisk].
Defined.

(** The pair "Bredd" / "abc mm": the value is no integer. *)
Lemma process_pair_skip_witness :
  process_pair (R := Demo.site_runtime Demo.shop) Demo.product1
               (Demo.text "Bredd") (Demo.text "abc mm") empty_result
               (Demo.start (Demo.site_runtime Demo.shop) tt)
  = (Ok empty_result,
     Demo.st (Demo.site_runtime Demo.shop) tt
             [Write (lit "/glasogon/1/1: invalid measurement value 'abc mm' or key 'bredd'.")]
             Demo.empty_disk).
Proof.
  apply (@process_pair_skip (Demo.site_runtime Demo.shop) Demo.product1
           (Demo.text "Bredd") (Demo.text "abc mm") empty_result
           (Demo.start (Demo.site_runtime Demo.shop) tt)).
  right. reflexivity.
Defined.

(** [Demo.shop], from the first line of [main] to the last. *)
Lemma main_returns_after_three_stages_witness :
  exists s' : state,
    main (R := Demo.site_runtime Demo.shop)
         (Demo.start (Demo.site_runtime Demo.shop) tt) = (Ok tt, s') /\
    exists (hrefs : list (option str)) (l : list event),
      log s' = l ++ closing_lines (length hrefs).
Proof.
  assert (H : exists s' : state,
             main (R := Demo.site_runtime Demo.shop)
                  (Demo.start (Demo.site_runtime Demo.shop) tt) = (Ok tt, s'))
    by (eexists; vm_compute; reflexivity).
  destruct H as (s' & Hmain).
  destruct (@main_returns_after_three_stages
              (Demo.site_runtime Demo.shop)
              (Demo.start (Demo.site_runtime Demo.shop) tt) s' Hmain)
    as (hrefs & dim & df & s1 & s2 & _ & _ & _ & _ & Hlog & _).
  exists s'. split; [exact Hmain|].
  exists hrefs, (log s2). exact Hlog.
Defined.

(** [Demo.shop_mismatch]: the run ends in [save_as_csv]. *)
Lemma main_raise_writes_no_csv_witness :
  exists s' : state,
    main (R := Demo.site_runtime Demo.shop_mismatch)
         (Demo.start (Demo.site_runtime Demo.shop_mismatch) tt)
    = (Raise ValueError, s') /\
    disk s' csv_path = None.
Proof.
  assert (H : exists s' : state,
             main (R := Demo.site_runtime Demo.shop_mismatch)
                  (Demo.start (Demo.site_runtime Demo.shop_mismatch) tt)
             = (Raise ValueError, s'))
    by (eexists; vm_compute; reflexivity).
  destruct H as (s' & Hmain).
  destruct (@main_raise_writes_no_csv
              (Demo.site_runtime Demo.shop_mismatch)
              (Demo.start (Demo.site_runtime Demo.shop_mismatch) tt)
              s' ValueError Hmain)
    as (Hcsv & _ & _).
  exists s'. split; [exact Hmain | exact Hcsv].
Defined.

(** A network without any product link. *)
Lemma main_on_an_empty_listing_witness :
  exists s' : state,
    main (R := Demo.site_runtime [])
         (Demo.start (Demo.site_runtime []) tt) = (Ok tt, s') /\
    disk s' csv_path = Some (File header_line) /\
    requests_of (log s') = [listing_base].
Proof.
  eexists. split; [|split].
  - apply (@main_on_an_empty_listing (Demo.site_runtime []) Demo.no_page tt
             (Demo.start (Demo.site_runtime []) tt)).
    + reflexivity.
    + reflexivity.
    + intros c. vm_compute. discriminate.
    + vm_compute. discriminate.
  - reflexivity.
  - reflexivity.
Defined.

(** [Demo.shop]: two links, two complete products, two rows. *)
Lemma main_writes_one_row_per_link_witness :
  exists s' : state,
    main (R := Demo.site_runtime Demo.shop)
         (Demo.start (Demo.site_runtime Demo.shop) tt) = (Ok tt, s') /\
    disk s' csv_path =
      Some (File (lit "url,bredd,brygga,glasbredd,skalmlangd" ++ [newline] ++
                  Demo.product1_url ++ lit ",140,18,54,150" ++ [newline] ++
                  Demo.product2_url ++ lit ",138,17,52,145" ++ [newline])).
Proof.
  destruct (@main_writes_one_row_per_link
              (Demo.site_runtime Demo.shop)
              [listing_base] (skipn 2 listing_urls) Demo.page2
              [Demo.listing [Demo.link "/glasogon/1/1"; Demo.link "/glasogon/2/2"]]
              Demo.no_page tt tt tt
              [Demo.product1; Demo.product2]
              [Demo.serve Demo.shop Demo.product1_url;
               Demo.serve Demo.shop Demo.product2_url]
              (Demo.start (Demo.site_runtime Demo.shop) tt))
    as (s' & Hmain & _ & Hdisk & _).
  - reflexivity.
  - reflexivity.
  - reflexivity.
  - reflexivity.
  - reflexivity.
  - reflexivity.
  - vm_compute. reflexivity.
  - vm_compute. reflexivity.
  - intros c. vm_compute. discriminate.
  - vm_compute. discriminate.
  - exists s'. split; [exact Hmain|]. rewrite Hdisk. vm_compute. reflexivity.
Defined.

(** [Demo.shop_middle_mismatch]: the page of the second of three
    products has two names and one value. *)
Lemma extract_dimensions_skips_mismatched_page_witness :
  exists (result : dict) (s' : state) (l1 l2 : list event),
    extract_dimensions (R := Demo.site_runtime Demo.shop_middle_mismatch)
                       [Some Demo.product1; Some Demo.product2;
                        Some Demo.product3]
                       (Demo.start (Demo.site_runtime Demo.shop_middle_mismatch) tt)
    = (Ok result, s') /\
    log s' = l1 ++ [Get Demo.product2_url; mismatch_line Demo.product2] ++ l2 /\
    dict_get (lit "url") result
    = Some [VStr Demo.product1_url; VStr Demo.product2_url;
            VStr Demo.product3_url] /\
    dict_get (lit "bredd") result = Some [VInt 140; VInt 138] /\
    dict_get (lit "brygga") result = Some [VInt 18; VInt 17].
Proof.
  destruct (@extract_dimensions_skips_mismatched_page
              (Demo.site_runtime Demo.shop_middle_mismatch)
              [Demo.product1] [Demo.product3] Demo.product2
              [Demo.serve Demo.shop_middle_mismatch Demo.product1_url]
              [Demo.serve Demo.shop_middle_mismatch Demo.product3_url]
              (Demo.serve Demo.shop_middle_mismatch Demo.product2_url)
              tt tt tt
              (Demo.start (Demo.site_runtime Demo.shop_middle_mismatch) tt))
    as (result & s' & l1 & l2 & Hrun & Hlog & _ & _ & Hcol).
  - reflexivity.
  - reflexivity.
  - vm_compute. lia.
  - reflexivity.
  - exists result, s', l1, l2. split; [exact Hrun|]. split; [exact Hlog|].
    split; [|split]; apply Hcol; vm_compute; tauto.
Defined.

(** [Demo.shop]: two products; the first has its bridge label between
    spaces, both have the label "Skalmlängd". *)
Lemma extract_dimensions_keys_and_measurements_witness :
  exists (result : dict) (s' : state),
    extract_dimensions (R := Demo.site_runtime Demo.shop)
                       [Some Demo.product1; Some Demo.product2]
                       (Demo.start (Demo.site_runtime Demo.shop) tt)
    = (Ok result, s') /\
    dict_get (lit "brygga") result = Some [VInt 18; VInt 17] /\
    dict_get (lit "skalmlangd") result = Some [VInt 150; VInt 145].
Proof.
  destruct (@extract_dimensions_keys_and_measurements
              (Demo.site_runtime Demo.shop)
              [Demo.product1; Demo.product2]
              [Demo.serve Demo.shop Demo.product1_url;
               Demo.serve Demo.shop Demo.product2_url]
              tt (Demo.start (Demo.site_runtime Demo.shop) tt))
    as [(result & s' & Hrun & Hcol & _) _].
  - reflexivity.
  - exists result, s'. split; [exact Hrun|].
    split; apply Hcol; vm_compute; tauto.
Defined.

(** * A skipped field that leaves the lists equal *)

(** C9 (counterexample). On [Demo.shop_width_twice] the first pair is
    skipped, its value being no number, and a line says so; yet another
    pair of the page gives the width, every list has one entry, none is
    shorter than the list of URLs, and [save_as_csv] writes the file. *)
Lemma skipped_field_with_equal_lists :
  exists (s1 s2 : state),
    extract_dimensions (R := Demo.site_runtime Demo.shop_width_twice)
                       [Some Demo.product1]
                       (Demo.start (Demo.site_runtime Demo.shop_width_twice) tt)
    = (Ok (five_columns [VStr Demo.product1_url] [VInt 140] [VInt 18]
                        [VInt 54] [VInt 150]),
       s1) /\
    log s1 =
      [Get Demo.product1_url;
       Write (lit "/glasogon/1/1: invalid measurement value 'abc mm' or key 'bredd'.")] /\
    save_as_csv (five_columns [VStr Demo.product1_url] [VInt 140] [VInt 18]
                              [VInt 54] [VInt 150]) s1
    = (Ok tt, s2) /\
    disk s2 csv_path =
      Some (File (lit "url,bredd,brygga,glasbredd,skalmlangd" ++ [newline] ++
                  Demo.product1_url ++ lit ",140,18,54,150" ++ [newline])).
Proof.
  eexists. eexists.
  split; [vm_compute; reflexivity|].
  split; [vm_compute; reflexivity|].
  split; [vm_compute; reflexivity|].
  vm_compute. reflexivity.
Qed.
